(** * EventsChart: the zoom-history controller of the organization events chart

    A shallow embedding of
    [src/sentry/static/sentry/app/views/organizationEvents/eventsChart.jsx].

    The component keeps three instance fields ([history], [currentPeriod],
    [zooming]) next to its React props.  Its event handlers are embedded as
    functions on an explicit instance state; the calls they make to the
    outside world ([props.onZoom], [props.actions.updateParams]) are recorded,
    in order, in a call log carried by the state.  The prop [actions] is taken
    to be there, as the container passes it, and its [updateParams] to return.
    The one handler that can raise a [TypeError] returns a [result].

    Time values are integers (milliseconds since the epoch); the NaN time value
    of an invalid date is [None].  The limit of 8.64e15 ms that ECMAScript puts
    on time values is not modelled. *)

From Stdlib Require Import ZArith String Ascii List Bool Lia.
Import ListNotations.
Open Scope string_scope.
Open Scope list_scope.
Open Scope Z_scope.

(** ** JavaScript values *)

(** A time value: [Some ms], or [None] for NaN. *)
Definition timeval := option Z.

(** The values that travel through the period fields of this component. *)
Inductive jsval :=
| Undefined
| Null
| Str (s : string)
| DateObj (t : timeval)     (* a [Date] *)
| MomentObj (t : timeval).  (* a moment *)

(** ToBoolean: [undefined], [null] and the empty string are falsy, every
    object is truthy. *)
Definition truthy (v : jsval) : bool :=
  match v with
  | Undefined | Null => false
  | Str s => negb (String.eqb s "")
  | DateObj _ | MomentObj _ => true
  end.


(** [String.prototype.endsWith] *)
Definition endsWith (s suffix : string) : bool :=
  let n := String.length s in
  let m := String.length suffix in
  (m <=? n)%nat && String.eqb (substring (n - m) m s) suffix.

(** [+a === +b] on two time values: NaN is different from everything. *)
Definition timeStrictEq (a b : timeval) : bool :=
  match a, b with
  | Some x, Some y => x =? y
  | _, _ => false
  end.

(** ** Arrays *)

(** [a[i]] for an integer [i]: [None] is [undefined]. *)
Definition index {A} (a : list A) (i : Z) : option A :=
  if i <? 0 then None else nth_error a (Z.to_nat i).

(** [a.push(x)] *)
Definition push {A} (a : list A) (x : A) : list A := a ++ [x].

(** [a.pop()]: the removed last element ([None] is [undefined]) and the
    array that is left. *)
Definition pop {A} (a : list A) : option A * list A :=
  match rev a with
  | [] => (None, [])
  | x :: r => (Some x, rev r)
  end.

(** ** Exceptions *)

Inductive exn := TypeError.

Inductive result (A : Type) :=
| Ok (a : A)
| Throw (e : exn).
Arguments Ok {A} a.
Arguments Throw {A} e.

Definition bind {A B} (r : result A) (k : A -> result B) : result B :=
  match r with
  | Ok a => k a
  | Throw e => Throw e
  end.

(** Reading a property of [undefined] throws. *)
Definition defined {A} (o : option A) : result A :=
  match o with
  | Some a => Ok a
  | None => Throw TypeError
  end.

Notation "x <- r ;; k" := (bind r (fun x => k))
  (at level 61, r at next level, right associativity).

(** ** The moment library *)

(** What the component needs from moment, which is not part of this
    repository: printing a valid instant in UTC with the format
    [HTML5_FMT.DATETIME_LOCAL_SECONDS], and reading a string as a UTC or as a
    local time. *)
Class Moment := {
  formatUtc : Z -> string;
  parseUtc : string -> timeval;
  parseLocal : string -> timeval
}.

Definition msPerSecond : Z := 1000.
Definition msPerHour : Z := 3600000.
Definition msPerDay : Z := 86400000.

(** [m.add(n, 'ms')] on the time value of a moment in UTC mode. *)
Definition addMs (d : Z) (t : timeval) : timeval :=
  match t with
  | Some x => Some (x + d)
  | None => None
  end.

(** [a.diff(b, 'hours')]: the difference in hours, truncated toward zero;
    NaN when either side is invalid. *)
Definition diffHours (a b : timeval) : timeval :=
  match a, b with
  | Some x, Some y => Some (Z.quot (x - y) msPerHour)
  | _, _ => None
  end.

(** [x <= 24] on a number that may be NaN. *)
Definition leNumber (x : timeval) (n : Z) : bool :=
  match x with
  | Some v => v <=? n
  | None => false
  end.

Section WithMoment.
Context {M : Moment}.

(** [m.format(...)] of a moment with time value [t]. *)
Definition format (t : timeval) : string :=
  match t with
  | Some ms => formatUtc ms
  | None => "Invalid date"
  end.

(** The time value of [moment(v)]; [now] is the reading of the clock, which
    moment takes for an [undefined] input. *)
Definition momentLocal (now : Z) (v : jsval) : timeval :=
  match v with
  | Undefined => Some now
  | Null => None
  | Str s => parseLocal s
  | DateObj t | MomentObj t => t
  end.

(** [getDate] (line 30):
    [date ? moment.utc(date).format(DATETIME_LOCAL_SECONDS) : null].
    The falsy values are [undefined], [null] and the empty string; of a string
    [moment.utc] takes the parsed instant, of a [Date] or a moment its time
    value. *)
Definition getDate (date : jsval) : jsval :=
  match date with
  | Undefined | Null => Null
  | Str s => if String.eqb s "" then Null else Str (format (parseUtc s))
  | DateObj t | MomentObj t => Str (format t)
  end.

End WithMoment.

(** ** Props *)

(** The value of one of the props [period], [start], [end]: the propTypes
    declare a string and two [Date]s, each of which may be [null] or
    [undefined]. *)
Inductive propval :=
| PUndefined
| PNull
| PStr (s : string)
| PDate (t : timeval).

(** A plain object: its own keys, in order, with their values. *)
Definition object := list (string * propval).

Module Props.
(** A key that was not passed at all is [None].  Of [zoom] and [onZoom]
    only the truthiness is read. *)
Record t := {
  period : option propval;
  start : option propval;
  end_ : option propval;
  zoom : bool;
  onZoom : bool;
  utc : bool
}.

Definition own (key : string) (v : option propval) : object :=
  match v with
  | Some x => [(key, x)]
  | None => []
  end.

(** The props object, as far as the period keys go. *)
Definition toObject (p : t) : object :=
  own "period" (period p) ++ own "start" (start p) ++ own "end" (end_ p).
End Props.

(** [props.key]: a missing key reads as [undefined]. *)
Definition read (v : option propval) : jsval :=
  match v with
  | None | Some PUndefined => Undefined
  | Some PNull => Null
  | Some (PStr s) => Str s
  | Some (PDate t) => DateObj t
  end.

(** ** The lodash functions of the render gate *)

Module Lodash.

Fixpoint get (o : object) (key : string) : option propval :=
  match o with
  | [] => None
  | (k, v) :: rest => if String.eqb k key then Some v else get rest key
  end.

(** [hasOwnProperty.call(o, key)] *)
Definition has (o : object) (key : string) : bool :=
  match get o key with
  | Some _ => true
  | None => false
  end.

(** [pick(o, paths)]: the paths that are in [o], in the order of [paths]. *)
Definition pick (o : object) (paths : list string) : object :=
  flat_map (fun key =>
              match get o key with
              | Some v => [(key, v)]
              | None => []
              end) paths.

Definition isDate (v : propval) : bool :=
  match v with
  | PDate _ => true
  | _ => false
  end.

(** SameValueZero on time values: NaN equals NaN. *)
Definition eq (a b : timeval) : bool :=
  match a, b with
  | Some x, Some y => x =? y
  | None, None => true
  | _, _ => false
  end.

(** [baseIsEqual] on the values a period key can hold: primitives by
    [===], two dates by tag, on their time values. *)
Definition baseIsEqual (value other : propval) : bool :=
  match value, other with
  | PUndefined, PUndefined => true
  | PNull, PNull => true
  | PStr a, PStr b => String.eqb a b
  | PDate a, PDate b => eq a b
  | _, _ => false
  end.

(** [equalObjects], without the partial flag: the same number of keys,
    every key of [obj] an own key of [other], and key by key the customizer's
    verdict or, when it returns [undefined], the default comparison. *)
Definition equalObjects (customizer : propval -> propval -> option bool)
    (obj other : object) : bool :=
  (length obj =? length other)%nat
  && forallb (fun kv => has other (fst kv)) obj
  && forallb (fun kv =>
                match get other (fst kv) with
                | Some othValue =>
                    match customizer (snd kv) othValue with
                    | Some compared => compared
                    | None => baseIsEqual (snd kv) othValue
                    end
                | None => false
                end) obj.

(** [isEqualWith(a, b, customizer)] on two plain objects: the customizer
    is first asked about the pair itself, which the customizer of this file
    leaves to the default, the key-wise comparison. *)
Definition isEqualWith (a b : object)
    (customizer : propval -> propval -> option bool) : bool :=
  equalObjects customizer a b.

End Lodash.

(** [dateComparator] (line 20): [None] is [undefined]. *)
Definition dateComparator (value other : propval) : option bool :=
  match value, other with
  | PDate a, PDate b => Some (timeStrictEq a b)
  | _, _ => None
  end.

(** [isEqualWithDates] (line 29) *)
Definition isEqualWithDates (a b : object) : bool :=
  Lodash.isEqualWith a b dateComparator.

Definition periodKeys : list string := ["period"; "start"; "end"].

(** [shouldComponentUpdate] (line 58); [props] is [this.props]. *)
Definition shouldComponentUpdate (props nextProps : Props.t) : bool :=
  let nextPeriod := Lodash.pick (Props.toObject nextProps) periodKeys in
  let currentPeriod := Lodash.pick (Props.toObject props) periodKeys in
  if Props.zoom nextProps || isEqualWithDates currentPeriod nextPeriod
  then false
  else true.

(** ** The component instance *)

(** A period object [{period, start, end}]: the argument of [setPeriod], the
    snapshot in [this.currentPeriod], an entry of [this.history]. *)
Record Period := {
  period : jsval;
  start : jsval;
  end_ : jsval
}.

(** The argument of [actions.updateParams]. *)
Module Params.
Record t := {
  statsPeriod : jsval;
  start : jsval;
  end_ : jsval;
  zoom : string
}.
End Params.

(** The arrow function that [setPeriod] stores in [this.zooming], by the
    variables it closes over. *)
Record closure := {
  cl_period : jsval;
  cl_start : jsval;
  cl_end : jsval;
  cl_startFormatted : jsval;
  cl_endFormatted : jsval
}.

(** [this.zooming]: never assigned, [null], or a function. *)
Inductive slot :=
| Unset
| Cleared
| Fn (c : closure).

(** A call that leaves the component. *)
Inductive call :=
| OnZoom (r : Period)
| UpdateParams (p : Params.t).

Record Instance := {
  props : Props.t;
  history : list Period;
  currentPeriod : Period;
  zooming : slot;
  log : list call   (* the calls made so far, oldest first *)
}.

Definition setHistory (h : list Period) (s : Instance) : Instance :=
  {| props := props s; history := h; currentPeriod := currentPeriod s;
     zooming := zooming s; log := log s |}.

Definition setCurrentPeriod (p : Period) (s : Instance) : Instance :=
  {| props := props s; history := history s; currentPeriod := p;
     zooming := zooming s; log := log s |}.

Definition setZooming (z : slot) (s : Instance) : Instance :=
  {| props := props s; history := history s; currentPeriod := currentPeriod s;
     zooming := z; log := log s |}.

Definition emit (c : call) (s : Instance) : Instance :=
  {| props := props s; history := history s; currentPeriod := currentPeriod s;
     zooming := zooming s; log := log s ++ [c] |}.

(** The fields [period], [start], [end] of a props object. *)
Definition periodOfProps (p : Props.t) : Period :=
  {| period := read (Props.period p);
     start := read (Props.start p);
     end_ := read (Props.end_ p) |}.

(** The chart model that [handleDataZoom] reads. *)
Module Chart.
(** A range marker of the axis: [undefined], [null] or an integer. *)
Inductive marker :=
| MUndefined
| MNull
| MIndex (i : Z).

Record axis := {
  rangeStart : marker;
  rangeEnd : marker
}.

(** The plotted points [[timestamp, value]]. *)
Record series := {
  data : list (Z * Z)
}.

(** [chart.getModel().option] *)
Record t := {
  xAxis : list axis;
  series_ : list series
}.

(** [m === null] *)
Definition isNull (m : marker) : bool :=
  match m with
  | MNull => true
  | _ => false
  end.

(** [data[m]]: only an integer marker can name an element. *)
Definition at_ (d : list (Z * Z)) (m : marker) : option (Z * Z) :=
  match m with
  | MIndex i => index d i
  | MUndefined | MNull => None
  end.
End Chart.

Section Component.
Context {M : Moment}.

(** [useHourlyInterval] (line 77) *)
Definition useHourlyInterval (now : Z) (p : Props.t) : bool :=
  match read (Props.period p) with
  | Str s => endsWith s "h" || String.eqb s "1d"
  | _ =>
      leNumber (diffHours (momentLocal now (read (Props.end_ p)))
                          (momentLocal now (read (Props.start p)))) 24
  end.

(** [saveCurrentPeriod] (line 91) *)
Definition saveCurrentPeriod (p : Period) (s : Instance) : Instance :=
  setCurrentPeriod
    {| period := period p; start := getDate (start p); end_ := getDate (end_ p) |}
    s.

(** The constructor (line 46). *)
Definition construct (p : Props.t) : Instance :=
  saveCurrentPeriod (periodOfProps p)
    {| props := p; history := [];
       currentPeriod := {| period := Undefined; start := Undefined; end_ := Undefined |};
       zooming := Unset; log := [] |}.

(** [componentDidUpdate] (line 71) *)
Definition componentDidUpdate (s : Instance) : Instance :=
  saveCurrentPeriod (periodOfProps (props s)) s.

(** [setPeriod] (line 108).  [saveHistory] is the truthiness of the second
    argument, which the callers pass as [true] or leave out. *)
Definition setPeriod (r : Period) (saveHistory : bool) (s : Instance) : Instance :=
  let startFormatted := getDate (start r) in
  let endFormatted := getDate (end_ r) in
  let s := if saveHistory
           then setHistory (push (history s) (currentPeriod s)) s
           else s in
  let s := if Props.onZoom (props s)
           then emit (OnZoom {| period := period r;
                                start := startFormatted;
                                end_ := endFormatted |}) s
           else s in
  setZooming (Fn {| cl_period := period r;
                    cl_start := start r;
                    cl_end := end_ r;
                    cl_startFormatted := startFormatted;
                    cl_endFormatted := endFormatted |}) s.

(** Calling the stored function (lines 131 to 140). *)
Definition invoke (c : closure) (s : Instance) : Instance :=
  let s := emit (UpdateParams {| Params.statsPeriod := cl_period c;
                                 Params.start := cl_startFormatted c;
                                 Params.end_ := cl_endFormatted c;
                                 Params.zoom := "1" |}) s in
  saveCurrentPeriod
    {| period := cl_period c; start := cl_start c; end_ := cl_end c |} s.

(** [handleZoomRestore] (line 159) *)
Definition handleZoomRestore (s : Instance) : Instance :=
  match history s with
  | [] => s
  | first :: _ => setHistory [] (setPeriod first false s)
  end.

(** [handleDataZoom] (line 170) *)
Definition handleDataZoom (now : Z) (chart : Chart.t) (s : Instance)
  : result Instance :=
  axis <- defined (hd_error (Chart.xAxis chart)) ;;
  let firstSeries := hd_error (Chart.series_ chart) in
  if Chart.isNull (Chart.rangeStart axis) && Chart.isNull (Chart.rangeEnd axis)
  then
    let (previousPeriod, rest) := pop (history s) in
    match previousPeriod with
    | None => Ok (setHistory rest s)
    | Some prev => Ok (setPeriod prev false (setHistory rest s))
    end
  else
    ser <- defined firstSeries ;;
    first <- defined (Chart.at_ (Chart.data ser) (Chart.rangeStart axis)) ;;
    let start := MomentObj (Some (fst first)) in
    last <- defined (Chart.at_ (Chart.data ser) (Chart.rangeEnd axis)) ;;
    let unit := if useHourlyInterval now (props s) then msPerHour else msPerDay in
    let end_ := MomentObj (addMs (- msPerSecond) (addMs unit (Some (fst last)))) in
    Ok (setPeriod {| period := Null; start := start; end_ := end_ |} true s).

(** [handleChartFinished] (line 206) *)
Definition handleChartFinished (s : Instance) : Instance :=
  match zooming s with
  | Fn c => setZooming Cleared (invoke c s)
  | Unset | Cleared => s
  end.

(** React hands over new props: it asks [shouldComponentUpdate], installs the
    props in any case, and after a render calls [componentDidUpdate]. *)
Definition receiveProps (nextProps : Props.t) (s : Instance) : Instance :=
  let s' := {| props := nextProps; history := history s;
               currentPeriod := currentPeriod s; zooming := zooming s;
               log := log s |} in
  if shouldComponentUpdate (props s) nextProps
  then componentDidUpdate s'
  else s'.

(** What can happen to a mounted component: the chart events it subscribes
    to (line 269), and new props. *)
Inductive event :=
| Datazoom (now : Z) (chart : Chart.t)
| Restore
| Finished
| NewProps (nextProps : Props.t).

(** The handler of an event (the table [onEvents], line 269). *)
Definition handle (e : event) (s : Instance) : result Instance :=
  match e with
  | Datazoom now chart => handleDataZoom now chart s
  | Restore => Ok (handleZoomRestore s)
  | Finished => Ok (handleChartFinished s)
  | NewProps nextProps => Ok (receiveProps nextProps s)
  end.

(** A sequence of events, up to the first handler that throws. *)
Fixpoint run (es : list event) (s : Instance) : result Instance :=
  match es with
  | [] => Ok s
  | e :: rest => s' <- handle e s ;; run rest s'
  end.

End Component.

(** ** A moment to run the model with

    Enough of moment to evaluate the component on concrete inputs: the
    proleptic Gregorian calendar in UTC, printed as [YYYY-MM-DDTHH:mm:ss], and
    a reader of exactly that shape.  Moment reads many more shapes; the
    theorems below hold for every instance of [Moment]. *)

Module Iso.

(** The character of a decimal digit. *)
Definition digit (n : Z) : ascii := ascii_of_nat (48 + Z.to_nat n).

(** The last two decimal digits of [n]. *)
Definition pad2 (n : Z) : string :=
  String (digit (n / 10 mod 10)) (String (digit (n mod 10)) "").

(** The last four decimal digits of [n]. *)
Definition pad4 (n : Z) : string :=
  String (digit (n / 1000 mod 10)) (String (digit (n / 100 mod 10)) (pad2 n)).

(** The civil date of a day number counted from 1970-01-01. *)
Definition civil (days : Z) : Z * Z * Z :=
  let z := days + 719468 in
  let era := z / 146097 in
  let doe := z - era * 146097 in
  let yoe := (doe - doe / 1460 + doe / 36524 - doe / 146096) / 365 in
  let doy := doe - (365 * yoe + yoe / 4 - yoe / 100) in
  let mp := (5 * doy + 2) / 153 in
  let d := doy - (153 * mp + 2) / 5 + 1 in
  let m := if mp <? 10 then mp + 3 else mp - 9 in
  let y := yoe + era * 400 + (if m <=? 2 then 1 else 0) in
  (y, m, d).

(** The day number of a civil date. *)
Definition dayNumber (y m d : Z) : Z :=
  let y := if m <=? 2 then y - 1 else y in
  let era := y / 400 in
  let yoe := y - era * 400 in
  let doy := (153 * (if 2 <? m then m - 3 else m + 9) + 2) / 5 + d - 1 in
  let doe := yoe * 365 + yoe / 4 - yoe / 100 + doy in
  era * 146097 + doe - 719468.

(** The decimal digits of [n], in front of [acc]. *)
Fixpoint decimal (fuel : nat) (n : Z) (acc : string) : string :=
  match fuel with
  | O => acc
  | S fuel' =>
      let acc' := String (digit (n mod 10)) acc in
      if n <? 10 then acc' else decimal fuel' (n / 10) acc'
  end.

(** The token [YYYY]: at least four digits, and a minus sign for the
    years before year 0. *)
Definition year (y : Z) : string :=
  let a := Z.abs y in
  (if y <? 0 then "-" else "")
  ++ (if a <? 10000 then pad4 a else decimal (S (Z.to_nat (Z.log2 a))) a "").

(** [moment.utc(ms).format('YYYY-MM-DDTHH:mm:ss')] *)
Definition print (ms : Z) : string :=
  let days := ms / msPerDay in
  let secs := (ms mod msPerDay) / msPerSecond in
  let '(y, m, d) := civil days in
  year y ++ "-" ++ pad2 m ++ "-" ++ pad2 d ++ "T"
  ++ pad2 (secs / 3600) ++ ":" ++ pad2 (secs / 60 mod 60) ++ ":"
  ++ pad2 (secs mod 60).

(** The value of a decimal digit, if [c] is one. *)
Definition digitValue (c : ascii) : option Z :=
  let n := nat_of_ascii c in
  if ((48 <=? n) && (n <=? 57))%nat then Some (Z.of_nat n - 48) else None.

(** The number written by the [len] digits of [s] from [pos] on. *)
Fixpoint number (s : string) (pos len : nat) (acc : Z) : option Z :=
  match len with
  | O => Some acc
  | S len' =>
      match String.get pos s with
      | Some c =>
          match digitValue c with
          | Some v => number s (S pos) len' (10 * acc + v)
          | None => None
          end
      | None => None
      end
  end.

(** The character of [s] at [pos] is [c]. *)
Definition isChar (s : string) (pos : nat) (c : ascii) : bool :=
  match String.get pos s with
  | Some c' => Ascii.eqb c c'
  | None => false
  end.

(** The instant written as [YYYY-MM-DDTHH:mm:ss], when the string has this
    shape and names a day of the calendar and a time of the day. *)
Definition read (s : string) : timeval :=
  if (String.length s =? 19)%nat
     && isChar s 4 "-" && isChar s 7 "-" && isChar s 10 "T"
     && isChar s 13 ":" && isChar s 16 ":"
  then
    match number s 0 4 0, number s 5 2 0, number s 8 2 0,
          number s 11 2 0, number s 14 2 0, number s 17 2 0 with
    | Some y, Some m, Some d, Some hh, Some mm, Some ss =>
        let days := dayNumber y m d in
        if (1 <=? m) && (m <=? 12) && (1 <=? d)
           && (let '(y', m', d') := civil days in
               (y' =? y) && (m' =? m) && (d' =? d))
           && (hh <=? 23) && (mm <=? 59) && (ss <=? 59)
        then Some (days * msPerDay + (hh * 3600 + mm * 60 + ss) * msPerSecond)
        else None
    | _, _, _, _, _, _ => None
    end
  else None.

(** The local zone of this instance is UTC. *)
#[export] Instance moment : Moment :=
  {| formatUtc := print; parseUtc := read; parseLocal := read |}.

End Iso.

(** ** Sample inputs *)

(** Props of a chart over the last fourteen days, with an [onZoom] callback. *)
Definition relativeProps : Props.t :=
  {| Props.period := Some (PStr "14d");
     Props.start := None;
     Props.end_ := None;
     Props.zoom := false;
     Props.onZoom := true;
     Props.utc := true |}.

(** Props of a chart over an absolute range of [span] milliseconds from
    2019-01-01T00:00:00. *)
Definition absoluteProps (span : Z) : Props.t :=
  {| Props.period := Some PNull;
     Props.start := Some (PDate (Some 1546300800000));
     Props.end_ := Some (PDate (Some (1546300800000 + span)));
     Props.zoom := false;
     Props.onZoom := true;
     Props.utc := true |}.

(** Props of a chart over the last 24 hours. *)
Definition hourlyProps : Props.t :=
  {| Props.period := Some (PStr "24h");
     Props.start := None;
     Props.end_ := None;
     Props.zoom := false;
     Props.onZoom := true;
     Props.utc := true |}.

(** Ten hourly points from 2019-01-01T00:00:00. *)
Definition hourlyData : list (Z * Z) :=
  map (fun i => (1546300800000 + i * msPerHour, i)) [0; 1; 2; 3; 4; 5; 6; 7; 8; 9].

(** A chart of these points with the given markers on its x axis. *)
Definition chartWith (rangeStart rangeEnd : Chart.marker) : Chart.t :=
  {| Chart.xAxis := [ {| Chart.rangeStart := rangeStart; Chart.rangeEnd := rangeEnd |} ];
     Chart.series_ := [ {| Chart.data := hourlyData |} ] |}.

(** A selection of the points 3 to 7, one of the points 4 to 5, and the
    chart's step back. *)
Definition selection37 : Chart.t := chartWith (Chart.MIndex 3) (Chart.MIndex 7).
Definition selection45 : Chart.t := chartWith (Chart.MIndex 4) (Chart.MIndex 5).
Definition stepBack : Chart.t := chartWith Chart.MNull Chart.MNull.

(** A mounted chart after two selections, each with its [finished] event. *)
Definition zoomedTwice : Instance :=
  match run (M := Iso.moment)
            [Datazoom 0 selection37; Finished; Datazoom 0 selection45; Finished]
            (construct (M := Iso.moment) relativeProps) with
  | Ok s => s
  | Throw _ => construct (M := Iso.moment) relativeProps
  end.


(** The instance that a run from a freshly mounted chart ends in; the
    mounted chart itself if a handler throws. *)
Definition after (p : Props.t) (es : list event) : Instance :=
  match run (M := Iso.moment) es (construct (M := Iso.moment) p) with
  | Ok s => s
  | Throw _ => construct (M := Iso.moment) p
  end.

(** Props with neither a period nor dates. *)
Definition bareProps : Props.t :=
  {| Props.period := None;
     Props.start := None;
     Props.end_ := None;
     Props.zoom := false;
     Props.onZoom := false;
     Props.utc := false |}.

(** The last fourteen days again, the other props changed. *)
Definition relativePropsLocal : Props.t :=
  {| Props.period := Some (PStr "14d");
     Props.start := None;
     Props.end_ := None;
     Props.zoom := false;
     Props.onZoom := false;
     Props.utc := false |}.

(** ** The vocabulary of the properties *)

(** The [updateParams] calls of a log. *)
Definition mutations (l : list call) : list Params.t :=
  flat_map (fun c => match c with
                     | UpdateParams p => [p]
                     | OnZoom _ => []
                     end) l.

(** The pending commits of an instance. *)
Definition pending (s : Instance) : list closure :=
  match zooming s with
  | Fn c => [c]
  | Unset | Cleared => []
  end.

(** The date-aware equality of two values: two dates are equal when their
    time values are equal numbers, anything else when it is the same value. *)
Definition sameValue (v w : propval) : Prop :=
  match v, w with
  | PDate a, PDate b => exists ms : Z, a = Some ms /\ b = Some ms
  | _, _ => v = w
  end.

(** A key of the two picked objects: in neither, or in both with equal
    values. *)
Definition sameField (a b : option propval) : Prop :=
  match a, b with
  | None, None => True
  | Some v, Some w => sameValue v w
  | _, _ => False
  end.

(** None of [period], [start], [end] changed. *)
Definition periodUnchanged (p q : Props.t) : Prop :=
  sameField (Props.period p) (Props.period q)
  /\ sameField (Props.start p) (Props.start q)
  /\ sameField (Props.end_ p) (Props.end_ q).

(** The comparison [equalObjects] makes of the values of one key. *)
Definition sameValueb (v w : propval) : bool :=
  match dateComparator v w with
  | Some compared => compared
  | None => Lodash.baseIsEqual v w
  end.

(** The same for a key that may be missing on either side. *)
Definition sameFieldb (a b : option propval) : bool :=
  match a, b with
  | None, None => true
  | Some v, Some w => sameValueb v w
  | _, _ => false
  end.

(** The event is the chart's own step back: both markers are [null]. *)
Definition isBack (chart : Chart.t) : bool :=
  match hd_error (Chart.xAxis chart) with
  | Some axis =>
      Chart.isNull (Chart.rangeStart axis) && Chart.isNull (Chart.rangeEnd axis)
  | None => false
  end.

(** The event is a selection: there is an axis and its markers are not both
    [null]. *)
Definition isZoomIn (chart : Chart.t) : bool :=
  match hd_error (Chart.xAxis chart) with
  | Some axis =>
      negb (Chart.isNull (Chart.rangeStart axis) && Chart.isNull (Chart.rangeEnd axis))
  | None => false
  end.


(** An event that takes nothing off the history: a selection, a [finished]
    event, new props. *)
Definition keepsHistory (e : event) : bool :=
  match e with
  | Datazoom _ chart => isZoomIn chart
  | Restore => false
  | Finished | NewProps _ => true
  end.

(** The selections among the events. *)
Definition zoomIns (es : list event) : nat :=
  length (filter (fun e => match e with Datazoom _ _ => true | _ => false end) es).

(** [n] step backs, each followed by the [finished] event of its
    animation. *)
Definition stepBacks (now : Z) (chart : Chart.t) (n : nat) : list event :=
  concat (repeat [Datazoom now chart; Finished] n).

(** Two instances that differ at most in the [onZoom] calls of their logs. *)
Definition sameCommits (s s' : Instance) : Prop :=
  props s = props s'
  /\ history s = history s'
  /\ currentPeriod s = currentPeriod s'
  /\ zooming s = zooming s'
  /\ mutations (log s) = mutations (log s').

(** Two outcomes of a handler: the same exception, or two such instances. *)
Definition sameOutcome (a b : result Instance) : Prop :=
  match a, b with
  | Ok s, Ok s' => sameCommits s s'
  | Throw e, Throw e' => e = e'
  | _, _ => False
  end.

Section Vocabulary.
Context {M : Moment}.

(** The period [setPeriod r] hands to [onZoom]. *)
Definition normalized (r : Period) : Period :=
  {| period := period r; start := getDate (start r); end_ := getDate (end_ r) |}.

(** The argument of the [updateParams] call that commits [r]. *)
Definition paramsOf (r : Period) : Params.t :=
  {| Params.statsPeriod := period r;
     Params.start := getDate (start r);
     Params.end_ := getDate (end_ r);
     Params.zoom := "1" |}.

(** The function [setPeriod r] stores. *)
Definition closureOf (r : Period) : closure :=
  {| cl_period := period r;
     cl_start := start r;
     cl_end := end_ r;
     cl_startFormatted := getDate (start r);
     cl_endFormatted := getDate (end_ r) |}.

(** What [useHourlyInterval] decides: a period string that ends in [h] or is
    [1d]; without a period string, a start and an end that moment reads as
    valid instants less than 25 hours after one another. *)
Definition hourly (now : Z) (p : Props.t) : Prop :=
  match read (Props.period p) with
  | Str s => (exists pre : string, s = (pre ++ "h")%string) \/ s = "1d"
  | _ =>
      exists a b : Z,
        momentLocal now (read (Props.start p)) = Some a
        /\ momentLocal now (read (Props.end_ p)) = Some b
        /\ b - a < 25 * msPerHour
  end.

(** What a step back on the entry [p] tells the parent, when there is an
    [onZoom] prop, and what the [finished] event after it commits. *)
Definition restored (onZoom : bool) (p : Period) : list call :=
  (if onZoom then [OnZoom (normalized p)] else []) ++ [UpdateParams (paramsOf p)].

End Vocabulary.

(** ** The render method *)



Section Render.
Context {M : Moment}.


End Render.

(** ** The container *)

Module Container.
Section Objects.

(** The values of the context and of the props, of which the container only
    tests the truthiness; [emptyArray] is a fresh [[]]. *)
Variable V : Type.
Variable truthyValue : V -> bool.
Variable emptyArray : V.

(** An object: its own keys in insertion order. *)
Definition obj := list (string * V).

(** [o[key]]: [None] is [undefined]. *)
Fixpoint lookup (o : obj) (key : string) : option V :=
  match o with
  | [] => None
  | (k, v) :: rest => if String.eqb k key then Some v else lookup rest key
  end.

(** Defining [key] in an object literal: a key that is there keeps its
    place and takes the new value, a new key goes last. *)
Fixpoint define (o : obj) (key : string) (v : V) : obj :=
  match o with
  | [] => [(key, v)]
  | (k, w) :: rest =>
      if String.eqb k key then (key, v) :: rest else (k, w) :: define rest key v
  end.

(** [{...target, ...source}] *)
Definition spread (target source : obj) : obj :=
  fold_left (fun acc kv => define acc (fst kv) (snd kv)) source target.

(** [value || []] *)
Definition orEmptyArray (value : option V) : V :=
  match value with
  | Some v => if truthyValue v then v else emptyArray
  | None => emptyArray
  end.

(** The props [EventsChartWithParams] hands to [EventsChart] (line 290):
    [{...context, project: context.project || [],
      environment: context.environment || [], ...this.props}]. *)
Definition chartProps (context props : obj) : obj :=
  spread
    (define
       (define (spread [] context) "project" (orEmptyArray (lookup context "project")))
       "environment" (orEmptyArray (lookup context "environment")))
    props.

(** The keys of an object. *)
Definition keys (o : obj) : list string := map fst o.

End Objects.
End Container.

(** A context with an organization and a [null] project, and props of the
    container; a value is an array of strings, or [None] for [null]. *)
Definition sampleContext : Container.obj (option (list string)) :=
  [("organization", Some ["sentry"]); ("project", None)].

Definition sampleContainerProps : Container.obj (option (list string)) :=
  [("environment", Some ["prod"]); ("utc", Some [])].

(** ** Further vocabulary *)

(** A value that [getDate] can return: [null] or a string. *)
Definition isFormatted (v : jsval) : bool :=
  match v with
  | Null | Str _ => true
  | _ => false
  end.

(** A period whose [start] and [end] are such values. *)
Definition isSnapshot (p : Period) : bool :=
  isFormatted (start p) && isFormatted (end_ p).

(** The event is a selection. *)
Definition isSelection (e : event) : bool :=
  match e with
  | Datazoom _ chart => isZoomIn chart
  | _ => false
  end.

(** The event is a gesture on the chart: a [datazoom] or a [restore]. *)
Definition isGesture (e : event) : bool :=
  match e with
  | Datazoom _ _ | Restore => true
  | Finished | NewProps _ => false
  end.

Definition isFinished (e : event) : bool :=
  match e with
  | Finished => true
  | _ => false
  end.

(** How many events of a kind a sequence holds. *)
Definition count (kind : event -> bool) (es : list event) : nat :=
  length (filter kind es).

(** New props, if the event brings any, still have an [onZoom]. *)
Definition keepsOnZoom (e : event) : bool :=
  match e with
  | NewProps p => Props.onZoom p
  | _ => true
  end.

(** The [updateParams] argument that goes with a period handed to [onZoom]. *)
Definition announcedParams (r : Period) : Params.t :=
  {| Params.statsPeriod := period r;
     Params.start := start r;
     Params.end_ := end_ r;
     Params.zoom := "1" |}.

(** What the [onZoom] calls of a log announced. *)
Definition announced (l : list call) : list Params.t :=
  flat_map (fun c => match c with
                     | OnZoom r => [announcedParams r]
                     | UpdateParams _ => []
                     end) l.

(** Walking a log from its start, every [updateParams] argument is among
    those announced up to there; [seen] holds what was announced before the
    log starts. *)
Fixpoint announcedFirst (seen : list Params.t) (l : list call) : Prop :=
  match l with
  | [] => True
  | OnZoom r :: rest => announcedFirst (announcedParams r :: seen) rest
  | UpdateParams p :: rest => In p seen /\ announcedFirst seen rest
  end.

(** The [updateParams] argument a stored function will pass. *)
Definition paramsOfClosure (c : closure) : Params.t :=
  {| Params.statsPeriod := cl_period c;
     Params.start := cl_startFormatted c;
     Params.end_ := cl_endFormatted c;
     Params.zoom := "1" |}.

(** What is kept along a run, of the calls [l] made since its start. *)
Definition notifiedSoFar (l : list call) (s : Instance) : Prop :=
  Props.onZoom (props s) = true
  /\ announcedFirst [] l
  /\ forall c, zooming s = Fn c -> In (paramsOfClosure c) (announced l).

(** A period key holds an invalid [Date]. *)
Definition isInvalidDate (v : option propval) : bool :=
  match v with
  | Some (PDate None) => true
  | _ => false
  end.

(** [this.props.key === undefined], for a missing key too. *)
Definition readsUndefined (v : option propval) : bool :=
  match read v with
  | Undefined => true
  | _ => false
  end.

(** Every period the instance keeps, the current one and those of the
    history, is a snapshot. *)
Definition snapshotsOnly (s : Instance) : Prop :=
  isSnapshot (currentPeriod s) = true
  /\ Forall (fun h => isSnapshot h = true) (history s).

(** [typeof this.props.period === 'string'] *)
Definition periodIsString (p : Props.t) : bool :=
  match read (Props.period p) with
  | Str _ => true
  | _ => false
  end.


(** The picked period keys of two props compare equal. *)
Definition samePeriodKeys (p q : Props.t) : bool :=
  isEqualWithDates (Lodash.pick (Props.toObject p) periodKeys)
                   (Lodash.pick (Props.toObject q) periodKeys).

Section FurtherVocabulary.
Context {M : Moment}.

(** A period that [getDate] leaves as it is. *)
Definition stable (p : Period) : Prop :=
  getDate (start p) = start p /\ getDate (end_ p) = end_ p.

End FurtherVocabulary.

(** * Properties *)

(** ** The sample moment *)

Example print_epoch : Iso.print 0 = "1970-01-01T00:00:00".
Proof. reflexivity. Qed.

Example print_leap_day : Iso.print 1582934400000 = "2020-02-29T00:00:00".
Proof. vm_compute. reflexivity. Qed.

Example print_before_epoch : Iso.print (-1000) = "1969-12-31T23:59:59".
Proof. vm_compute. reflexivity. Qed.

Example read_leap_day : Iso.read "2020-02-29T00:00:00" = Some 1582934400000.
Proof. vm_compute. reflexivity. Qed.

Example print_year_10000 : Iso.print 253402300800000 = "10000-01-01T00:00:00".
Proof. vm_compute. reflexivity. Qed.

Example read_no_such_day : Iso.read "2019-02-29T00:00:00" = None.
Proof. vm_compute. reflexivity. Qed.

(** ** Arrays, logs and strings *)

Lemma mutations_app (l1 l2 : list call) :
  mutations (l1 ++ l2) = mutations l1 ++ mutations l2.
Proof. unfold mutations. apply flat_map_app. Qed.

Lemma pop_nil {A} : pop (@nil A) = (None, []).
Proof. reflexivity. Qed.

Lemma pop_push {A} (a : list A) (x : A) : pop (push a x) = (Some x, a).
Proof. unfold pop, push. rewrite rev_unit, rev_involutive. reflexivity. Qed.

Lemma setHistory_same (s : Instance) : setHistory (history s) s = s.
Proof. destruct s; reflexivity. Qed.

Lemma substring_append_skip (pre t : string) (m : nat) :
  substring (String.length pre) m (pre ++ t) = substring 0 m t.
Proof. induction pre as [| c pre IH]; simpl; [reflexivity | exact IH]. Qed.

Lemma substring_whole (t : string) : substring 0 (String.length t) t = t.
Proof. induction t as [| c t IH]; simpl; [reflexivity | now rewrite IH]. Qed.

Lemma length_append_string (a b : string) :
  String.length (a ++ b) = (String.length a + String.length b)%nat.
Proof. induction a as [| c a IH]; simpl; [reflexivity | now rewrite IH]. Qed.

Lemma substring_split (t : string) : forall k : nat,
  (k <= String.length t)%nat ->
  t = (substring 0 k t ++ substring k (String.length t - k) t)%string.
Proof.
  induction t as [| c t IH]; intros k Hk; simpl in *.
  - destruct k; reflexivity.
  - destruct k as [| k]; simpl.
    + now rewrite substring_whole.
    + f_equal. apply IH. lia.
Qed.

(** [endsWith] holds exactly of the strings that end in the suffix. *)
Lemma endsWith_spec (t suffix : string) :
  endsWith t suffix = true <-> exists pre : string, t = (pre ++ suffix)%string.
Proof.
  unfold endsWith. rewrite andb_true_iff, Nat.leb_le, String.eqb_eq. split.
  - intros [Hle Hsub]. exists (substring 0 (String.length t - String.length suffix) t).
    pose proof (substring_split t (String.length t - String.length suffix)
                  ltac:(lia)) as S.
    replace (String.length t - (String.length t - String.length suffix))%nat
      with (String.length suffix) in S by lia.
    rewrite Hsub in S. exact S.
  - intros [pre ->]. rewrite length_append_string. split; [lia |].
    replace (String.length pre + String.length suffix - String.length suffix)%nat
      with (String.length pre) by lia.
    rewrite substring_append_skip. apply substring_whole.
Qed.

(** Whole hours, truncated toward zero, are at most 24 exactly below 25
    hours. *)
Lemma quot_hours_le_24 (d : Z) :
  Z.quot d msPerHour <= 24 <-> d < 25 * msPerHour.
Proof.
  unfold msPerHour.
  assert (H := Z.quot_rem' d 3600000).
  destruct (Z_lt_le_dec d 0) as [Hneg | Hpos].
  - assert (Hr := Z.rem_bound_abs d 3600000 ltac:(lia)).
    assert (Hs := Z.rem_nonpos d 3600000 ltac:(lia) ltac:(lia)). lia.
  - assert (Hr := Z.rem_bound_pos d 3600000 Hpos ltac:(lia)). lia.
Qed.

(** ** The render gate *)

Lemma sameValueb_spec (v w : propval) : sameValueb v w = true <-> sameValue v w.
Proof.
  unfold sameValueb, sameValue.
  destruct v as [| | a | a], w as [| | b | b]; simpl;
    try (split; [reflexivity | reflexivity]);
    try (split; discriminate).
  - rewrite String.eqb_eq. split; congruence.
  - destruct a as [x |], b as [y |]; simpl.
    + rewrite Z.eqb_eq. split.
      * intros ->. exists y. auto.
      * intros (ms & Ha & Hb). congruence.
    + split; [discriminate | intros (ms & _ & Hb); discriminate].
    + split; [discriminate | intros (ms & Ha & _); discriminate].
    + split; [discriminate | intros (ms & Ha & _); discriminate].
Qed.

Lemma sameFieldb_spec (a b : option propval) : sameFieldb a b = true <-> sameField a b.
Proof.
  destruct a as [v |], b as [w |]; simpl;
    try apply sameValueb_spec; try tauto; split; (discriminate || contradiction).
Qed.

(** The comparison of the two picked objects is the comparison of the three
    keys. *)
Lemma isEqualWithDates_pick (p q : Props.t) :
  isEqualWithDates (Lodash.pick (Props.toObject p) periodKeys)
                   (Lodash.pick (Props.toObject q) periodKeys)
  = sameFieldb (Props.period p) (Props.period q)
    && sameFieldb (Props.start p) (Props.start q)
    && sameFieldb (Props.end_ p) (Props.end_ q).
Proof.
  destruct p as [pp ps pe pz po pu], q as [qp qs qe qz qo qu].
  unfold isEqualWithDates, Lodash.isEqualWith, Lodash.equalObjects, Props.toObject,
    sameFieldb, sameValueb.
  destruct pp as [pp |], ps as [ps |], pe as [pe |],
           qp as [qp |], qs as [qs |], qe as [qe |];
    cbn -[dateComparator Lodash.baseIsEqual];
    rewrite ?andb_true_r, ?andb_false_r, ?andb_assoc; reflexivity.
Qed.

(** C7.  [shouldComponentUpdate] returns [false] exactly when the [zoom]
    prop of the next props is set or none of [period], [start], [end] differs
    between the current and the next props, two dates being equal when their
    time values are; in every other case it returns [true]. *)
Theorem shouldComponentUpdate_spec (props nextProps : Props.t) :
  (shouldComponentUpdate props nextProps = false
   <-> Props.zoom nextProps = true \/ periodUnchanged props nextProps)
  /\ (shouldComponentUpdate props nextProps = true
      <-> Props.zoom nextProps = false /\ ~ periodUnchanged props nextProps).
Proof.
  assert (E : isEqualWithDates (Lodash.pick (Props.toObject props) periodKeys)
                               (Lodash.pick (Props.toObject nextProps) periodKeys) = true
              <-> periodUnchanged props nextProps).
  { rewrite isEqualWithDates_pick, !andb_true_iff, !sameFieldb_spec.
    unfold periodUnchanged. tauto. }
  unfold shouldComponentUpdate.
  destruct (Props.zoom nextProps); simpl.
  - split; [split; auto | split; [discriminate | intros [H _]; discriminate]].
  - destruct (isEqualWithDates _ _) eqn:Q.
    + assert (U : periodUnchanged props nextProps) by (apply E; reflexivity).
      split; [split; auto | split; [discriminate | intros [_ H]; contradiction]].
    + assert (U : ~ periodUnchanged props nextProps)
        by (intros H; apply E in H; discriminate).
      split; [split; [discriminate | intros [H | H]; [discriminate | contradiction]]
             | split; auto].
Qed.

(** A [start] rebuilt as another [Date] of the same instant does not
    re-render. *)
Lemma shouldComponentUpdate_same_instant (span : Z) :
  shouldComponentUpdate (absoluteProps span) (absoluteProps span) = false.
Proof.
  unfold shouldComponentUpdate. rewrite isEqualWithDates_pick.
  unfold absoluteProps, sameFieldb, sameValueb.
  cbn [Props.period Props.start Props.end_ Props.zoom dateComparator timeStrictEq
       Lodash.baseIsEqual orb andb].
  rewrite !Z.eqb_refl. reflexivity.
Qed.

(** A [start] one second later does. *)
Example shouldComponentUpdate_later_start :
  shouldComponentUpdate
    (absoluteProps msPerDay)
    {| Props.period := Some PNull;
       Props.start := Some (PDate (Some (1546300800000 + msPerSecond)));
       Props.end_ := Some (PDate (Some (1546300800000 + msPerDay)));
       Props.zoom := false; Props.onZoom := true; Props.utc := true |}
  = true.
Proof. reflexivity. Qed.

(** Two invalid dates are not equal to one another. *)
Example shouldComponentUpdate_invalid_dates :
  let p := {| Props.period := None;
              Props.start := Some (PDate None);
              Props.end_ := Some (PDate None);
              Props.zoom := false; Props.onZoom := true; Props.utc := true |} in
  shouldComponentUpdate p p = true.
Proof. reflexivity. Qed.

(** A prop outside the period keys does not open the gate. *)
Example shouldComponentUpdate_other_prop :
  shouldComponentUpdate
    relativeProps
    {| Props.period := Some (PStr "14d");
       Props.start := None; Props.end_ := None;
       Props.zoom := false; Props.onZoom := true; Props.utc := false |}
  = false.
Proof. reflexivity. Qed.

Section Properties.
Context {M : Moment}.

(** ** [setPeriod] and the [finished] event *)

Lemma setPeriod_props r b s : props (setPeriod r b s) = props s.
Proof. unfold setPeriod. destruct b, (Props.onZoom (props s)) eqn:E; simpl; rewrite ?E; reflexivity. Qed.

Lemma setPeriod_zooming r b s : zooming (setPeriod r b s) = Fn (closureOf r).
Proof. reflexivity. Qed.

Lemma setPeriod_currentPeriod r b s :
  currentPeriod (setPeriod r b s) = currentPeriod s.
Proof. unfold setPeriod. destruct b, (Props.onZoom (props s)) eqn:E; simpl; rewrite ?E; reflexivity. Qed.

Lemma setPeriod_history r b s :
  history (setPeriod r b s)
  = if b then push (history s) (currentPeriod s) else history s.
Proof. unfold setPeriod. destruct b, (Props.onZoom (props s)) eqn:E; simpl; rewrite ?E; reflexivity. Qed.

Lemma setPeriod_log r b s :
  log (setPeriod r b s)
  = log s ++ (if Props.onZoom (props s) then [OnZoom (normalized r)] else []).
Proof.
  unfold setPeriod.
  destruct b, (Props.onZoom (props s)) eqn:E; simpl; rewrite ?E; simpl;
    rewrite ?app_nil_r; reflexivity.
Qed.

Lemma setPeriod_mutations r b s :
  mutations (log (setPeriod r b s)) = mutations (log s).
Proof.
  rewrite setPeriod_log, mutations_app.
  destruct (Props.onZoom (props s)); simpl; apply app_nil_r.
Qed.

Lemma invoke_log c s :
  log (invoke c s)
  = log s ++ [UpdateParams {| Params.statsPeriod := cl_period c;
                              Params.start := cl_startFormatted c;
                              Params.end_ := cl_endFormatted c;
                              Params.zoom := "1" |}].
Proof. reflexivity. Qed.


Lemma finished_pending c s :
  zooming s = Fn c -> handleChartFinished s = setZooming Cleared (invoke c s).
Proof. unfold handleChartFinished. intros ->. reflexivity. Qed.

(** [getDate] is the conditional of the source: [null] on the falsy values, a
    string on the others. *)
Lemma getDate_falsy (v : jsval) : getDate v = Null <-> truthy v = false.
Proof.
  destruct v as [| | str | t | t]; simpl; try tauto; try (split; discriminate).
  destruct (String.eqb str ""); simpl; split; (reflexivity || discriminate).
Qed.


(** C3.  [handleChartFinished] with a stored function calls it, which makes
    exactly one [updateParams] call, and sets the slot to [null]; without one
    it changes nothing.  Two calls in a row are one call, and add at most one
    [updateParams] call. *)
Theorem handleChartFinished_once (s : Instance) :
  match zooming s with
  | Fn c =>
      handleChartFinished s = setZooming Cleared (invoke c s)
      /\ log (handleChartFinished s)
         = log s ++ [UpdateParams {| Params.statsPeriod := cl_period c;
                                     Params.start := cl_startFormatted c;
                                     Params.end_ := cl_endFormatted c;
                                     Params.zoom := "1" |}]
      /\ zooming (handleChartFinished s) = Cleared
  | Unset | Cleared => handleChartFinished s = s
  end
  /\ handleChartFinished (handleChartFinished s) = handleChartFinished s
  /\ (length (mutations (log (handleChartFinished (handleChartFinished s))))
      <= S (length (mutations (log s))))%nat.
Proof.
  unfold handleChartFinished.
  destruct (zooming s) as [| | c] eqn:Z; rewrite ?Z; simpl.
  - repeat split; auto.
  - repeat split; auto.
  - repeat split; auto.
    rewrite mutations_app, length_app. simpl. lia.
Qed.

(** C8.  With an [onZoom] prop, [setPeriod] calls it at once, with the period
    and the formatted start and end, and makes no [updateParams] call; the
    call [updateParams({statsPeriod, start, end, zoom: '1'})] with the same
    strings is made when the stored function runs, at the next [finished]
    event. *)
Theorem setPeriod_notifies_then_commits (r : Period) (saveHistory : bool)
    (s : Instance) :
  Props.onZoom (props s) = true ->
  let s' := setPeriod r saveHistory s in
  log s' = log s ++ [OnZoom {| period := period r;
                               start := getDate (start r);
                               end_ := getDate (end_ r) |}]
  /\ mutations (log s') = mutations (log s)
  /\ pending s' = [closureOf r]
  /\ log (handleChartFinished s')
     = log s' ++ [UpdateParams {| Params.statsPeriod := period r;
                                  Params.start := getDate (start r);
                                  Params.end_ := getDate (end_ r);
                                  Params.zoom := "1" |}].
Proof.
  intros Hz s'. subst s'.
  assert (L := setPeriod_log r saveHistory s). rewrite Hz in L.
  split; [| split; [| split]].
  - exact L.
  - rewrite L, mutations_app. simpl. apply app_nil_r.
  - reflexivity.
  - reflexivity.
Qed.

(** ** Commits do not depend on the notifications *)

Lemma sameCommits_refl s : sameCommits s s.
Proof. repeat split. Qed.

Lemma setHistory_sameCommits h s s' :
  sameCommits s s' -> sameCommits (setHistory h s) (setHistory h s').
Proof. intros (? & ? & ? & ? & ?). repeat split; assumption. Qed.

Lemma setPeriod_sameCommits r b s s' :
  sameCommits s s' -> sameCommits (setPeriod r b s) (setPeriod r b s').
Proof.
  intros (Hp & Hh & Hc & Hz & Hm). unfold sameCommits.
  rewrite !setPeriod_props, !setPeriod_history, !setPeriod_currentPeriod,
    !setPeriod_zooming, !setPeriod_log, !mutations_app, Hp, Hh, Hc, Hm.
  repeat split.
Qed.

Lemma finished_sameCommits s s' :
  sameCommits s s' -> sameCommits (handleChartFinished s) (handleChartFinished s').
Proof.
  intros H. pose proof H as (Hp & Hh & Hc & Hz & Hm). unfold handleChartFinished.
  rewrite <- Hz. destruct (zooming s); try exact H.
  unfold sameCommits; cbn -[mutations]. rewrite !mutations_app, Hp, Hm. repeat split.
  exact Hh.
Qed.

Lemma restore_sameCommits s s' :
  sameCommits s s' -> sameCommits (handleZoomRestore s) (handleZoomRestore s').
Proof.
  intros H. unfold handleZoomRestore.
  assert (Hh : history s = history s') by apply H. rewrite <- Hh.
  destruct (history s).
  - exact H.
  - apply setHistory_sameCommits, setPeriod_sameCommits, H.
Qed.

Lemma receiveProps_sameCommits p s s' :
  sameCommits s s' -> sameCommits (receiveProps p s) (receiveProps p s').
Proof.
  intros (Hp & Hh & Hc & Hz & Hm). unfold receiveProps. rewrite <- Hp.
  destruct (shouldComponentUpdate (props s) p); repeat split; cbn -[mutations]; assumption.
Qed.

Lemma datazoom_sameCommits now chart s s' :
  sameCommits s s' ->
  sameOutcome (handleDataZoom now chart s) (handleDataZoom now chart s').
Proof.
  intros H. unfold handleDataZoom.
  destruct (hd_error (Chart.xAxis chart)) as [axis |]; simpl; [| reflexivity].
  destruct (Chart.isNull (Chart.rangeStart axis) && Chart.isNull (Chart.rangeEnd axis)).
  - assert (Hh : history s = history s') by apply H. rewrite <- Hh.
    destruct (pop (history s)) as [[prev |] rest]; simpl.
    + apply setPeriod_sameCommits, setHistory_sameCommits, H.
    + apply setHistory_sameCommits, H.
  - destruct (hd_error (Chart.series_ chart)) as [ser |]; simpl; [| reflexivity].
    destruct (Chart.at_ (Chart.data ser) (Chart.rangeStart axis)); simpl; [| reflexivity].
    destruct (Chart.at_ (Chart.data ser) (Chart.rangeEnd axis)); simpl; [| reflexivity].
    assert (Hp : props s = props s') by apply H. rewrite <- Hp.
    apply setPeriod_sameCommits, H.
Qed.

Lemma handle_sameCommits e s s' :
  sameCommits s s' -> sameOutcome (handle e s) (handle e s').
Proof.
  intros H. destruct e; simpl.
  - apply datazoom_sameCommits, H.
  - apply restore_sameCommits, H.
  - apply finished_sameCommits, H.
  - apply receiveProps_sameCommits, H.
Qed.

Lemma run_sameCommits es : forall s s',
  sameCommits s s' -> sameOutcome (run es s) (run es s').
Proof.
  induction es as [| e es IH]; intros s s' H; simpl.
  - exact H.
  - pose proof (handle_sameCommits e s s' H) as Hs.
    destruct (handle e s), (handle e s'); simpl in *; try contradiction.
    + apply IH, Hs.
    + exact Hs.
Qed.

(** C2.  The slot [this.zooming] holds at most one function.  A second
    [setPeriod] before the [finished] event replaces the function stored by
    the first: the next [finished] event makes the [updateParams] call of the
    second range and no other, a further one makes none, and whatever happens
    afterwards, the [updateParams] calls are those that would have been made
    had the first call asked for any other range. *)
Theorem second_setPeriod_supersedes (r1 r2 : Period) (b1 b2 : bool)
    (s : Instance) :
  let s2 := setPeriod r2 b2 (setPeriod r1 b1 s) in
  (forall i : Instance, (length (pending i) <= 1)%nat)
  /\ pending s2 = [closureOf r2]
  /\ mutations (log s2) = mutations (log s)
  /\ mutations (log (handleChartFinished s2)) = mutations (log s) ++ [paramsOf r2]
  /\ handleChartFinished (handleChartFinished s2) = handleChartFinished s2
  /\ (forall (r1' : Period) (es : list event),
        sameOutcome (run es s2) (run es (setPeriod r2 b2 (setPeriod r1' b1 s)))).
Proof.
  intros s2. subst s2. repeat apply conj.
  - intros i. unfold pending. destruct (zooming i); simpl; lia.
  - reflexivity.
  - rewrite !setPeriod_mutations. reflexivity.
  - unfold handleChartFinished. rewrite setPeriod_zooming.
    cbn -[mutations setPeriod]. rewrite mutations_app, !setPeriod_mutations.
    reflexivity.
  - unfold handleChartFinished. rewrite setPeriod_zooming. reflexivity.
  - intros r1' es. apply run_sameCommits.
    unfold sameCommits.
    rewrite !setPeriod_props, !setPeriod_history, !setPeriod_currentPeriod,
      !setPeriod_zooming, !setPeriod_mutations.
    repeat split.
Qed.

(** ** The interval selector *)

(** C4, as the code has it.  [useHourlyInterval] answers hourly exactly for
    a period string ending in [h] or equal to [1d], and, without a period
    string, for a range whose length in whole hours, truncated, is at most 24,
    which is any range shorter than 25 hours: 24h0m0s and 24h0m1s are both
    hourly, 25h0m0s is daily. *)
Theorem useHourlyInterval_spec (now : Z) (p : Props.t) :
  useHourlyInterval now p = true <-> hourly now p.
Proof.
  unfold useHourlyInterval, hourly.
  assert (D : leNumber (diffHours (momentLocal now (read (Props.end_ p)))
                                  (momentLocal now (read (Props.start p)))) 24 = true
              <-> exists a b : Z,
                    momentLocal now (read (Props.start p)) = Some a
                    /\ momentLocal now (read (Props.end_ p)) = Some b
                    /\ b - a < 25 * msPerHour).
  { destruct (momentLocal now (read (Props.end_ p))) as [b |],
             (momentLocal now (read (Props.start p))) as [a |]; simpl.
    - rewrite Z.leb_le, quot_hours_le_24. split.
      + intros H. exists a, b. auto.
      + intros (a' & b' & Ha & Hb & H).
        injection Ha as ->. injection Hb as ->. exact H.
    - split; [discriminate | intros (a' & b' & Ha & _); discriminate].
    - split; [discriminate | intros (a' & b' & _ & Hb & _); discriminate].
    - split; [discriminate | intros (a' & b' & Ha & _); discriminate]. }
  destruct (read (Props.period p)) as [| | str | t | t]; try exact D.
  rewrite orb_true_iff, endsWith_spec, String.eqb_eq. reflexivity.
Qed.

(** ** The [datazoom] handler *)

Lemma handleDataZoom_back now chart s :
  isBack chart = true ->
  handleDataZoom now chart s
  = Ok (match pop (history s) with
        | (Some prev, rest) => setPeriod prev false (setHistory rest s)
        | (None, _) => s
        end).
Proof.
  unfold isBack, handleDataZoom.
  destruct (hd_error (Chart.xAxis chart)) as [axis |]; [| discriminate].
  intros Hb. cbn [bind defined]. rewrite Hb. unfold pop.
  destruct (rev (history s)) as [| x r] eqn:E; [| reflexivity].
  f_equal. rewrite <- (setHistory_same s) at 2. f_equal.
  rewrite <- (rev_involutive (history s)), E. reflexivity.
Qed.

Lemma handleDataZoom_back_empty now chart s :
  isBack chart = true -> history s = [] -> handleDataZoom now chart s = Ok s.
Proof. intros Hb Hh. rewrite handleDataZoom_back, Hh by exact Hb. reflexivity. Qed.

Lemma handleDataZoom_back_push now chart s h p :
  isBack chart = true -> history s = push h p ->
  handleDataZoom now chart s = Ok (setPeriod p false (setHistory h s)).
Proof.
  intros Hb Hh. rewrite handleDataZoom_back, Hh, pop_push by exact Hb. reflexivity.
Qed.



(** ** Histories built by zooming in *)

Lemma handleDataZoom_zoomIn_history now chart s s' :
  isZoomIn chart = true ->
  handleDataZoom now chart s = Ok s' ->
  history s' = history s ++ [currentPeriod s].
Proof.
  unfold isZoomIn, handleDataZoom.
  destruct (hd_error (Chart.xAxis chart)) as [axis |]; [| discriminate].
  cbn [bind defined].
  destruct (Chart.isNull (Chart.rangeStart axis) && Chart.isNull (Chart.rangeEnd axis));
    [discriminate |].
  intros _.
  destruct (hd_error (Chart.series_ chart)) as [ser |]; simpl; [| discriminate].
  destruct (Chart.at_ (Chart.data ser) (Chart.rangeStart axis)); simpl; [| discriminate].
  destruct (Chart.at_ (Chart.data ser) (Chart.rangeEnd axis)); simpl; [| discriminate].
  intros [= <-]. rewrite setPeriod_history. reflexivity.
Qed.

Lemma handleChartFinished_history s : history (handleChartFinished s) = history s.
Proof. unfold handleChartFinished. destruct (zooming s); reflexivity. Qed.

Lemma receiveProps_history p s : history (receiveProps p s) = history s.
Proof. unfold receiveProps. destruct (shouldComponentUpdate (props s) p); reflexivity. Qed.

Lemma handle_keepsHistory e s s' :
  keepsHistory e = true ->
  handle e s = Ok s' ->
  exists tail, history s' = history s ++ tail /\ length tail = zoomIns [e].
Proof.
  destruct e as [now chart | | | p]; simpl; intros Hk H.
  - exists [currentPeriod s]. split; [| reflexivity].
    eapply handleDataZoom_zoomIn_history; eassumption.
  - discriminate.
  - injection H as <-. exists []. rewrite app_nil_r, handleChartFinished_history. auto.
  - injection H as <-. exists []. rewrite app_nil_r, receiveProps_history. auto.
Qed.

Lemma run_keepsHistory es : forall s s',
  forallb keepsHistory es = true ->
  run es s = Ok s' ->
  exists tail, history s' = history s ++ tail /\ length tail = zoomIns es.
Proof.
  induction es as [| e es IH]; simpl; intros s s' Hk H.
  - injection H as <-. exists []. rewrite app_nil_r. auto.
  - apply andb_true_iff in Hk as [Hk Hks].
    destruct (handle e s) as [s1 |] eqn:E; simpl in H; [| discriminate].
    destruct (handle_keepsHistory e s s1 Hk E) as (t1 & H1 & L1).
    destruct (IH s1 s' Hks H) as (t2 & H2 & L2).
    exists (t1 ++ t2). rewrite H2, H1, app_assoc. split; [reflexivity |].
    rewrite length_app, L1, L2. unfold zoomIns. simpl.
    destruct e; reflexivity.
Qed.

(** C1.  [handleZoomRestore] leaves an instance with an empty history as it
    is.  After a first selection on an empty history, followed by any further
    selections, [finished] events and new props, the history holds one entry
    per selection, the oldest being the snapshot that was current before the
    first selection; [handleZoomRestore] then calls [setPeriod] on that oldest
    entry, without [saveHistory], and empties the history. *)
Theorem handleZoomRestore_first_snapshot (now : Z) (chart : Chart.t)
    (es : list event) (s0 s : Instance) :
  history s0 = [] ->
  isZoomIn chart = true ->
  forallb keepsHistory es = true ->
  run (Datazoom now chart :: es) s0 = Ok s ->
  handleZoomRestore s0 = s0
  /\ length (history s) = S (zoomIns es)
  /\ hd_error (history s) = Some (currentPeriod s0)
  /\ handleZoomRestore s = setHistory [] (setPeriod (currentPeriod s0) false s)
  /\ history (handleZoomRestore s) = []
  /\ pending (handleZoomRestore s) = [closureOf (currentPeriod s0)].
Proof.
  intros H0 Hz Hk Hrun. simpl in Hrun.
  destruct (handleDataZoom now chart s0) as [s1 |] eqn:E1; simpl in Hrun;
    [| discriminate].
  pose proof (handleDataZoom_zoomIn_history _ _ _ _ Hz E1) as H1.
  rewrite H0 in H1. simpl in H1.
  destruct (run_keepsHistory es s1 s Hk Hrun) as (tail & Ht & Lt).
  rewrite H1 in Ht. simpl in Ht.
  repeat apply conj.
  - unfold handleZoomRestore. rewrite H0. reflexivity.
  - rewrite Ht. simpl. now rewrite Lt.
  - rewrite Ht. reflexivity.
  - unfold handleZoomRestore. rewrite Ht. reflexivity.
  - unfold handleZoomRestore. rewrite Ht. reflexivity.
  - unfold handleZoomRestore. rewrite Ht. reflexivity.
Qed.

(** ** Stepping back *)

Lemma stepBacks_run now chart :
  isBack chart = true ->
  forall (h : list Period) (s : Instance),
    history s = h ->
    exists s',
      run (stepBacks now chart (length h)) s = Ok s'
      /\ history s' = []
      /\ props s' = props s
      /\ log s' = log s ++ flat_map (restored (Props.onZoom (props s))) (rev h).
Proof.
  intros Hb h. induction h as [| p h IH] using rev_ind; intros s Hh.
  - exists s. simpl. rewrite app_nil_r. auto.
  - rewrite length_app, Nat.add_comm. simpl.
    rewrite (handleDataZoom_back_push now chart s h p Hb Hh). simpl.
    set (s1 := setPeriod p false (setHistory h s)).
    assert (Hz : zooming s1 = Fn (closureOf p)) by reflexivity.
    unfold handleChartFinished at 1. rewrite Hz.
    set (s2 := setZooming Cleared (invoke (closureOf p) s1)).
    assert (H2 : history s2 = h).
    { subst s2 s1. cbn -[setPeriod]. rewrite setPeriod_history. reflexivity. }
    assert (P2 : props s2 = props s).
    { subst s2 s1. cbn -[setPeriod]. rewrite setPeriod_props. reflexivity. }
    assert (L2 : log s2 = log s ++ restored (Props.onZoom (props s)) p).
    { subst s2 s1. cbn -[setPeriod]. rewrite setPeriod_log. cbn -[setPeriod].
      unfold restored. rewrite <- app_assoc. reflexivity. }
    destruct (IH s2 H2) as (s' & Hrun & Hh' & Hp' & Hl').
    exists s'. fold (stepBacks now chart (length h)).
    rewrite Hrun. repeat split.
    + exact Hh'.
    + congruence.
    + rewrite Hl', L2, P2, rev_unit. simpl. rewrite <- app_assoc. reflexivity.
Qed.

(** C6.  A [datazoom] event with both markers [null] takes the most recent
    entry off the history and calls [setPeriod] on it, without [saveHistory];
    on an empty history it changes nothing.  As many such events as the
    history has entries, each followed by its [finished] event, restore the
    entries from the most recent to the oldest and leave the history empty;
    one more changes nothing. *)
Theorem handleDataZoom_steps_back (now : Z) (chart : Chart.t) (s : Instance) :
  isBack chart = true ->
  handleDataZoom now chart s
  = Ok (match pop (history s) with
        | (Some prev, rest) => setPeriod prev false (setHistory rest s)
        | (None, _) => s
        end)
  /\ (forall (h : list Period) (p : Period),
        history s = h ++ [p] ->
        exists s1,
          handleDataZoom now chart s = Ok s1
          /\ history s1 = h
          /\ pending s1 = [closureOf p])
  /\ exists s',
       run (stepBacks now chart (length (history s))) s = Ok s'
       /\ history s' = []
       /\ log s' = log s ++ flat_map (restored (Props.onZoom (props s)))
                                     (rev (history s))
       /\ handleDataZoom now chart s' = Ok s'.
Proof.
  intros Hb. repeat apply conj.
  - apply handleDataZoom_back, Hb.
  - intros h p Hh. eexists. split.
    + apply handleDataZoom_back_push; eassumption.
    + split; [rewrite setPeriod_history |]; reflexivity.
  - destruct (stepBacks_run now chart Hb (history s) s eq_refl)
      as (s' & Hrun & Hh' & _ & Hl').
    exists s'. repeat split; try assumption.
    apply handleDataZoom_back_empty; assumption.
Qed.

End Properties.

(** * Further properties *)

Section FurtherProperties.
Context {M : Moment}.

(** ** What the handlers do to the instance *)

Lemma pop_cases {A} (a : list A) :
  (a = [] /\ pop a = (None, []))
  \/ exists h x, a = h ++ [x] /\ pop a = (Some x, h).
Proof.
  destruct a as [| y a'] using rev_ind.
  - left. auto.
  - right. exists a', y. split; [reflexivity | apply pop_push].
Qed.

(** A [datazoom] event that returns was a step back or a selection, and a
    selection called [setPeriod] on an absolute range of two moments. *)
Lemma handleDataZoom_cases now chart s s' :
  handleDataZoom now chart s = Ok s' ->
  (isBack chart = true /\ isZoomIn chart = false
   /\ s' = match pop (history s) with
           | (Some prev, rest) => setPeriod prev false (setHistory rest s)
           | (None, _) => s
           end)
  \/ (isBack chart = false /\ isZoomIn chart = true
      /\ exists a b : Z,
           s' = setPeriod {| period := Null;
                             start := MomentObj (Some a);
                             end_ := MomentObj (Some b) |} true s).
Proof.
  intros H.
  destruct (isBack chart) eqn:B.
  - left. rewrite handleDataZoom_back in H by exact B. injection H as <-.
    repeat split. unfold isBack in B. unfold isZoomIn.
    destruct (hd_error (Chart.xAxis chart)); [now rewrite B | reflexivity].
  - right. unfold isBack in B. unfold isZoomIn, handleDataZoom in *.
    destruct (hd_error (Chart.xAxis chart)) as [axis |]; [| discriminate].
    cbn [bind defined] in H. rewrite B in *. split; [reflexivity |].
    split; [reflexivity |].
    destruct (hd_error (Chart.series_ chart)) as [ser |]; simpl in H; [| discriminate].
    destruct (Chart.at_ (Chart.data ser) (Chart.rangeStart axis)) as [first |];
      simpl in H; [| discriminate].
    destruct (Chart.at_ (Chart.data ser) (Chart.rangeEnd axis)) as [last |];
      simpl in H; [| discriminate].
    injection H as <-. eexists. eexists. reflexivity.
Qed.

Lemma run_app es1 : forall es2 s s',
  run (es1 ++ es2) s = Ok s' <->
  exists s1, run es1 s = Ok s1 /\ run es2 s1 = Ok s'.
Proof.
  induction es1 as [| e es1 IH]; intros es2 s s'; simpl.
  - split; [eauto | intros (s1 & [= <-] & H); exact H].
  - destruct (handle e s) as [s1 |]; simpl.
    + apply IH.
    + split; [discriminate | intros (s1 & H & _); discriminate].
Qed.

Lemma getDate_formatted (v : jsval) : isFormatted (getDate v) = true.
Proof.
  destruct v as [| | str | t | t]; simpl; try reflexivity.
  destruct (String.eqb str ""); reflexivity.
Qed.

Lemma saveCurrentPeriod_snapshot r s :
  isSnapshot (currentPeriod (saveCurrentPeriod r s)) = true.
Proof. unfold isSnapshot. simpl. now rewrite !getDate_formatted. Qed.

Lemma saveCurrentPeriod_history r s : history (saveCurrentPeriod r s) = history s.
Proof. reflexivity. Qed.

Lemma setPeriod_snapshotsOnly r b s :
  snapshotsOnly s -> snapshotsOnly (setPeriod r b s).
Proof.
  intros [Hc Hh]. unfold snapshotsOnly.
  rewrite setPeriod_currentPeriod, setPeriod_history. split; [exact Hc |].
  destruct b; [| exact Hh]. unfold push. apply Forall_app. auto.
Qed.

Lemma handle_snapshotsOnly e s s' :
  handle e s = Ok s' -> snapshotsOnly s -> snapshotsOnly s'.
Proof.
  destruct e as [now chart | | | p]; simpl; intros H I.
  - destruct (handleDataZoom_cases _ _ _ _ H) as [(_ & _ & ->) | (_ & _ & a & b & ->)].
    + destruct (pop_cases (history s)) as [[_ ->] | (h & x & Hh & ->)]; [exact I |].
      apply setPeriod_snapshotsOnly. destruct I as [Hc Hf]. split; [exact Hc |].
      simpl. rewrite Hh in Hf. apply Forall_app in Hf. apply Hf.
    + apply setPeriod_snapshotsOnly, I.
  - injection H as <-. unfold handleZoomRestore.
    destruct (history s) as [| first rest]; [exact I |].
    destruct (setPeriod_snapshotsOnly first false s I) as [Hc _].
    split; [exact Hc | constructor].
  - injection H as <-. unfold handleChartFinished.
    destruct (zooming s) as [| | c]; try exact I.
    split; [apply saveCurrentPeriod_snapshot | apply I].
  - injection H as <-. unfold receiveProps, componentDidUpdate.
    destruct (shouldComponentUpdate (props s) p).
    + split; [apply saveCurrentPeriod_snapshot | apply I].
    + exact I.
Qed.

(** X1.  Whatever happens to a mounted chart, the current period and every
    entry of the history hold [null] or a string as [start] and as [end]: no
    [Date], no moment and no [undefined] is ever kept. *)
Theorem snapshots_only (p : Props.t) (es : list event) (s : Instance) :
  run es (construct p) = Ok s ->
  snapshotsOnly s.
Proof.
  assert (G : forall es s0 s, run es s0 = Ok s -> snapshotsOnly s0 -> snapshotsOnly s).
  { clear. intros es. induction es as [| e es IH]; simpl; intros s0 s H I.
    - injection H as <-. exact I.
    - destruct (handle e s0) as [s1 |] eqn:E; simpl in H; [| discriminate].
      eapply IH; [exact H |]. eapply handle_snapshotsOnly; eassumption. }
  intros H. apply (G es _ _ H).
  split; [apply saveCurrentPeriod_snapshot | constructor].
Qed.

Lemma pop_length {A} (a : list A) : (length (snd (pop a)) <= length a)%nat.
Proof.
  destruct (pop_cases a) as [[-> ->] | (h & x & -> & ->)]; simpl; [lia |].
  rewrite length_app. simpl. lia.
Qed.

Lemma handle_history_length e s s' :
  handle e s = Ok s' ->
  (length (history s') <= length (history s) + count isSelection [e])%nat.
Proof.
  destruct e as [now chart | | | p]; unfold count; simpl; intros H.
  - destruct (handleDataZoom_cases _ _ _ _ H) as [(_ & Z & ->) | (_ & Z & a & b & ->)];
      rewrite Z; cbn -[setPeriod pop].
    + pose proof (pop_length (history s)) as L.
      destruct (pop (history s)) as [[prev |] rest]; cbn [snd] in L; [| lia].
      rewrite setPeriod_history. simpl. lia.
    + rewrite setPeriod_history. unfold push. rewrite length_app. simpl. lia.
  - injection H as <-. unfold handleZoomRestore.
    destruct (history s) eqn:E; simpl; rewrite ?E; simpl; lia.
  - injection H as <-. rewrite handleChartFinished_history. lia.
  - injection H as <-. rewrite receiveProps_history. lia.
Qed.

Lemma count_cons kind (e : event) es :
  count kind (e :: es) = (count kind [e] + count kind es)%nat.
Proof. unfold count. simpl. destruct (kind e); reflexivity. Qed.

(** X2.  The history grows by selections only, one entry each: after any
    events it has at most as many entries more as there were selections. *)
Theorem history_grows_by_selections (es : list event) (s s' : Instance) :
  run es s = Ok s' ->
  (length (history s') <= length (history s) + count isSelection es)%nat.
Proof.
  revert s. induction es as [| e es IH]; simpl; intros s H.
  - injection H as <-. unfold count. simpl. lia.
  - destruct (handle e s) as [s1 |] eqn:E; simpl in H; [| discriminate].
    pose proof (handle_history_length e s s1 E). pose proof (IH s1 H).
    rewrite count_cons. lia.
Qed.

Lemma handle_commits e s s' :
  handle e s = Ok s' ->
  (length (mutations (log s')) <= length (mutations (log s)) + count isFinished [e])%nat
  /\ (length (mutations (log s')) + length (pending s')
      <= length (mutations (log s)) + length (pending s) + count isGesture [e])%nat.
Proof.
  assert (P : forall r b i, length (pending (setPeriod r b i)) = 1%nat) by reflexivity.
  assert (Q : forall i, (length (pending i) <= 1)%nat).
  { intros i. unfold pending. destruct (zooming i); simpl; lia. }
  destruct e as [now chart | | | p]; unfold count; simpl; intros H.
  - destruct (handleDataZoom_cases _ _ _ _ H) as [(_ & _ & ->) | (_ & _ & a & b & ->)].
    + destruct (pop (history s)) as [[prev |] rest]; [| lia].
      rewrite setPeriod_mutations, P. simpl. lia.
    + rewrite setPeriod_mutations, P. lia.
  - injection H as <-. unfold handleZoomRestore.
    destruct (history s) as [| first rest]; [lia |].
    change (log (setHistory [] (setPeriod first false s)))
      with (log (setPeriod first false s)).
    change (pending (setHistory [] (setPeriod first false s)))
      with (pending (setPeriod first false s)).
    rewrite setPeriod_mutations, P. lia.
  - injection H as <-. unfold handleChartFinished, pending.
    destruct (zooming s) as [| | c] eqn:Z; rewrite ?Z; simpl; try lia.
    rewrite mutations_app, length_app. simpl. lia.
  - injection H as <-. unfold receiveProps, pending.
    destruct (shouldComponentUpdate (props s) p); simpl; lia.
Qed.

(** X3.  The URL is updated by [finished] events only, at most once per
    event, and at most once per gesture: over any events, the number of
    [updateParams] calls is at most the number of [finished] events and at
    most the number of [datazoom] and [restore] events, plus one if a function
    was stored at the start. *)
Theorem commits_bounded (es : list event) (s s' : Instance) :
  run es s = Ok s' ->
  (length (mutations (log s')) <= length (mutations (log s)) + count isFinished es)%nat
  /\ (length (mutations (log s'))
      <= length (mutations (log s)) + length (pending s) + count isGesture es)%nat.
Proof.
  intros H.
  assert (G : (length (mutations (log s')) <= length (mutations (log s)) + count isFinished es)%nat
              /\ (length (mutations (log s')) + length (pending s')
                  <= length (mutations (log s)) + length (pending s) + count isGesture es)%nat).
  { revert s H. induction es as [| e es IH]; simpl; intros s H.
    - injection H as <-. unfold count. simpl. lia.
    - destruct (handle e s) as [s1 |] eqn:E; simpl in H; [| discriminate].
      destruct (handle_commits e s s1 E). destruct (IH s1 H).
      rewrite (count_cons isFinished), (count_cons isGesture). lia. }
  destruct G. split; lia.
Qed.

(** ** Round trips *)

Lemma stable_normalized (p : Period) : stable p -> normalized p = p.
Proof. destruct p as [pp ps pe]. unfold stable, normalized. simpl. intros [-> ->]. reflexivity. Qed.

Lemma finished_after_setPeriod r b s :
  handleChartFinished (setPeriod r b s)
  = setZooming Cleared (invoke (closureOf r) (setPeriod r b s)).
Proof. reflexivity. Qed.

Lemma finished_after_setPeriod_fields r b s :
  let s' := handleChartFinished (setPeriod r b s) in
  currentPeriod s' = normalized r
  /\ history s' = history (setPeriod r b s)
  /\ zooming s' = Cleared
  /\ props s' = props s
  /\ mutations (log s') = mutations (log s) ++ [paramsOf r].
Proof.
  cbv zeta. rewrite finished_after_setPeriod. repeat apply conj; try reflexivity.
  - cbn -[setPeriod]. apply setPeriod_props.
  - cbn -[setPeriod mutations]. rewrite mutations_app, setPeriod_mutations. reflexivity.
Qed.

(** X4.  Zooming in and stepping back is a round trip.  When the current
    period is one [getDate] leaves as it is (a relative period, for one), a
    selection, its [finished] event, a step back and its [finished] event put
    the current period and the history back as they were, leave no function
    stored, and have updated the URL twice: to the selected range, then to the
    period from before. *)
Theorem selection_then_back (now now' : Z) (chart back : Chart.t) (s s' : Instance) :
  stable (currentPeriod s) ->
  isZoomIn chart = true ->
  isBack back = true ->
  run [Datazoom now chart; Finished; Datazoom now' back; Finished] s = Ok s' ->
  currentPeriod s' = currentPeriod s
  /\ history s' = history s
  /\ zooming s' = Cleared
  /\ exists r : Period,
       mutations (log s') = mutations (log s) ++ [paramsOf r; paramsOf (currentPeriod s)].
Proof.
  intros St Hz Hb H. simpl in H.
  destruct (handleDataZoom now chart s) as [s1 |] eqn:E1; simpl in H; [| discriminate].
  destruct (handleDataZoom_cases _ _ _ _ E1) as [(_ & Z & _) | (_ & _ & a & b & ->)];
    [congruence |].
  set (r := {| period := Null; start := MomentObj (Some a); end_ := MomentObj (Some b) |}) in *.
  destruct (finished_after_setPeriod_fields r true s) as (C2 & H2 & Z2 & P2 & M2).
  cbv zeta in *.
  set (s2 := handleChartFinished (setPeriod r true s)) in *.
  rewrite setPeriod_history in H2.
  rewrite (handleDataZoom_back_push now' back s2 (history s) (currentPeriod s) Hb H2) in H.
  simpl in H. injection H as <-.
  destruct (finished_after_setPeriod_fields (currentPeriod s) false
              (setHistory (history s) s2)) as (C4 & H4 & Z4 & P4 & M4).
  cbv zeta in *. rewrite setPeriod_history in H4.
  rewrite C4, H4, Z4, M4. rewrite (stable_normalized _ St).
  repeat split. exists r.
  change (log (setHistory (history s) s2)) with (log s2).
  rewrite M2, <- app_assoc. reflexivity.
Qed.

(** X5.  Restoring is a round trip to the first view.  After a first
    selection on an empty history, taken from a current period that [getDate]
    leaves as it is, and any further selections, [finished] events and new
    props, a [restore] event and its [finished] event make that first period
    the current one again, with an empty history and no function stored. *)
Theorem zoom_then_restore (now : Z) (chart : Chart.t) (es : list event)
    (s0 s' : Instance) :
  history s0 = [] ->
  stable (currentPeriod s0) ->
  isZoomIn chart = true ->
  forallb keepsHistory es = true ->
  run ((Datazoom now chart :: es) ++ [Restore; Finished]) s0 = Ok s' ->
  currentPeriod s' = currentPeriod s0
  /\ history s' = []
  /\ zooming s' = Cleared
  /\ exists before : list call,
       log s' = before ++ [UpdateParams (paramsOf (currentPeriod s0))].
Proof.
  intros H0 St Hz Hk H.
  apply run_app in H as (s & Hs & H).
  simpl in Hs.
  destruct (handleDataZoom now chart s0) as [s1 |] eqn:E1; simpl in Hs; [| discriminate].
  pose proof (handleDataZoom_zoomIn_history _ _ _ _ Hz E1) as H1.
  rewrite H0 in H1. simpl in H1.
  destruct (run_keepsHistory es s1 s Hk Hs) as (tail & Ht & _).
  rewrite H1 in Ht. simpl in Ht.
  simpl in H. injection H as <-.
  unfold handleZoomRestore. rewrite Ht.
  change (handleChartFinished (setHistory [] (setPeriod (currentPeriod s0) false s)))
    with (setZooming Cleared
            (invoke (closureOf (currentPeriod s0))
                    (setHistory [] (setPeriod (currentPeriod s0) false s)))).
  repeat apply conj; try reflexivity.
  - change (normalized (currentPeriod s0) = currentPeriod s0).
    apply stable_normalized, St.
  - eexists. reflexivity.
Qed.

(** X6.  Two selections with no [finished] event between them push the same
    period twice: the current period only changes when the stored function
    runs, so the history then holds the period from before the first
    selection two times, and nothing has been committed. *)
Theorem selections_before_finished (now1 now2 : Z) (c1 c2 : Chart.t)
    (s s' : Instance) :
  isZoomIn c1 = true ->
  isZoomIn c2 = true ->
  run [Datazoom now1 c1; Datazoom now2 c2] s = Ok s' ->
  history s' = history s ++ [currentPeriod s; currentPeriod s]
  /\ currentPeriod s' = currentPeriod s
  /\ mutations (log s') = mutations (log s).
Proof.
  intros Z1 Z2 H. simpl in H.
  destruct (handleDataZoom now1 c1 s) as [s1 |] eqn:E1; simpl in H; [| discriminate].
  destruct (handleDataZoom now2 c2 s1) as [s2 |] eqn:E2; simpl in H; [| discriminate].
  injection H as <-.
  destruct (handleDataZoom_cases _ _ _ _ E1) as [(_ & Z & _) | (_ & _ & a & b & ->)];
    [congruence |].
  destruct (handleDataZoom_cases _ _ _ _ E2) as [(_ & Z & _) | (_ & _ & a' & b' & ->)];
    [congruence |].
  rewrite !setPeriod_history, !setPeriod_currentPeriod, !setPeriod_mutations.
  unfold push. rewrite <- app_assoc. auto.
Qed.

(** ** More on the render gate *)

Lemma sameFieldb_same (a : option propval) :
  sameFieldb a a = negb (isInvalidDate a).
Proof.
  destruct a as [[| | str | [ms |]] |]; simpl; try reflexivity.
  - unfold sameValueb. simpl. apply String.eqb_refl.
  - unfold sameValueb. simpl. apply Z.eqb_refl.
Qed.

Lemma sameField_eq (a b : option propval) : sameField a b -> a = b.
Proof.
  destruct a as [v |], b as [w |]; simpl; try tauto.
  destruct v, w; simpl; try congruence.
  intros (ms & -> & ->). reflexivity.
Qed.

Lemma sameFieldb_sym (a b : option propval) : sameFieldb a b = sameFieldb b a.
Proof.
  destruct (sameFieldb a b) eqn:E, (sameFieldb b a) eqn:F; try reflexivity.
  - pose proof (sameField_eq _ _ (proj1 (sameFieldb_spec _ _) E)). subst. congruence.
  - pose proof (sameField_eq _ _ (proj1 (sameFieldb_spec _ _) F)). subst. congruence.
Qed.

Lemma sameFieldb_trans (a b c : option propval) :
  sameFieldb a b = true -> sameFieldb b c = true -> sameFieldb a c = true.
Proof.
  intros E F. apply sameFieldb_spec, sameField_eq in E. subst. exact F.
Qed.

(** X7.  When the next props carry the same [period], [start] and [end] as
    the current ones, [shouldComponentUpdate] does not look at anything else:
    a change of any other prop alone never re-renders.  It returns [true] in
    one case only: the [zoom] prop is not set and one of the three keys holds
    an invalid [Date], which is not equal to itself. *)
Theorem gate_on_unchanged_period (p q : Props.t) :
  Props.period q = Props.period p ->
  Props.start q = Props.start p ->
  Props.end_ q = Props.end_ p ->
  shouldComponentUpdate p q
  = negb (Props.zoom q)
    && (isInvalidDate (Props.period p) || isInvalidDate (Props.start p)
        || isInvalidDate (Props.end_ p)).
Proof.
  intros Hp Hs He. unfold shouldComponentUpdate.
  rewrite isEqualWithDates_pick, Hp, Hs, He, !sameFieldb_same.
  destruct (Props.zoom q), (isInvalidDate (Props.period p)),
    (isInvalidDate (Props.start p)), (isInvalidDate (Props.end_ p)); reflexivity.
Qed.

(** X8.  The comparison of the period keys that the gate makes is symmetric
    and transitive, and two props that compare equal hold the very same
    values under the three keys. *)
Theorem samePeriodKeys_equivalence (p q r : Props.t) :
  samePeriodKeys p q = samePeriodKeys q p
  /\ (samePeriodKeys p q = true -> samePeriodKeys q r = true ->
      samePeriodKeys p r = true)
  /\ (samePeriodKeys p q = true ->
      Props.period p = Props.period q
      /\ Props.start p = Props.start q
      /\ Props.end_ p = Props.end_ q).
Proof.
  unfold samePeriodKeys. rewrite !isEqualWithDates_pick. repeat apply conj.
  - now rewrite (sameFieldb_sym (Props.period p)), (sameFieldb_sym (Props.start p)),
      (sameFieldb_sym (Props.end_ p)).
  - rewrite !andb_true_iff. intros [[A B] C] [[D E] F].
    repeat split; eapply sameFieldb_trans; eassumption.
  - rewrite !andb_true_iff, !sameFieldb_spec. intros [[A B] C].
    repeat split; apply sameField_eq; assumption.
Qed.

(** X9.  As long as the [zoom] prop is not set, the current period follows
    the props: if it is the normalized period of the props before new props
    arrive, it is the normalized period of the new props afterwards, whether
    the gate opens or not; the history, the stored function and the calls
    made are not touched. *)
Theorem receiveProps_follows (q : Props.t) (s : Instance) :
  Props.zoom q = false ->
  currentPeriod s = normalized (periodOfProps (props s)) ->
  currentPeriod (receiveProps q s) = normalized (periodOfProps q)
  /\ history (receiveProps q s) = history s
  /\ zooming (receiveProps q s) = zooming s
  /\ log (receiveProps q s) = log s.
Proof.
  intros Hz Hc. unfold receiveProps.
  destruct (shouldComponentUpdate (props s) q) eqn:G.
  - repeat split.
  - repeat split. cbn [currentPeriod]. rewrite Hc.
    unfold shouldComponentUpdate in G. rewrite Hz in G. cbn [orb] in G.
    destruct (isEqualWithDates _ _) eqn:E in G; [| discriminate].
    rewrite isEqualWithDates_pick, !andb_true_iff, !sameFieldb_spec in E.
    destruct E as [[A B] C].
    apply sameField_eq in A, B, C. unfold periodOfProps. now rewrite A, B, C.
Qed.

(** ** More on the interval selector *)

Lemma momentLocal_clock now now' v :
  v <> Undefined -> momentLocal now v = momentLocal now' v.
Proof. destruct v; simpl; congruence. Qed.

(** X10.  Without a period string, a chart whose [start] and [end] are both
    [undefined] is hourly, since moment reads [undefined] as the present and
    the difference is zero; one whose [start] or [end] is [null] is daily,
    since moment reads [null] as an invalid date and no comparison with NaN
    holds.  (The two readings of the clock are taken at one instant.) *)
Theorem useHourlyInterval_without_dates (now : Z) (p : Props.t) :
  periodIsString p = false ->
  (readsUndefined (Props.start p) = true ->
   readsUndefined (Props.end_ p) = true ->
   useHourlyInterval now p = true)
  /\ (read (Props.start p) = Null \/ read (Props.end_ p) = Null ->
      useHourlyInterval now p = false).
Proof.
  unfold periodIsString, readsUndefined, useHourlyInterval.
  destruct (read (Props.period p)); try discriminate; intros _; split.
  all: try (destruct (read (Props.start p)), (read (Props.end_ p));
            try discriminate; intros _ _; simpl; rewrite Z.sub_diag; reflexivity).
  all: intros [-> | ->]; simpl; [| reflexivity];
    destruct (momentLocal now (read (Props.end_ p))); reflexivity.
Qed.

(** X11.  [useHourlyInterval] reads the clock only when there is no period
    string and [start] or [end] is [undefined]: in every other case its
    answer is the same at any time. *)
Theorem useHourlyInterval_clock (now now' : Z) (p : Props.t) :
  periodIsString p = true
  \/ (readsUndefined (Props.start p) = false
      /\ readsUndefined (Props.end_ p) = false) ->
  useHourlyInterval now p = useHourlyInterval now' p.
Proof.
  unfold periodIsString, readsUndefined, useHourlyInterval.
  intros [S | [A B]].
  - destruct (read (Props.period p)); try discriminate. reflexivity.
  - assert (E : momentLocal now (read (Props.start p))
                = momentLocal now' (read (Props.start p))).
    { apply momentLocal_clock. intros U. rewrite U in A. discriminate. }
    assert (F : momentLocal now (read (Props.end_ p))
                = momentLocal now' (read (Props.end_ p))).
    { apply momentLocal_clock. intros U. rewrite U in B. discriminate. }
    rewrite E, F. reflexivity.
Qed.



(** ** Notifications come first *)

Lemma announced_app (l1 l2 : list call) :
  announced (l1 ++ l2) = announced l1 ++ announced l2.
Proof. unfold announced. apply flat_map_app. Qed.

Lemma announcedFirst_snoc_onZoom l r : forall seen,
  announcedFirst seen l -> announcedFirst seen (l ++ [OnZoom r]).
Proof.
  induction l as [| [r' | p] l IH]; simpl; intros seen H.
  - exact I.
  - apply IH, H.
  - destruct H as [Hin H]. split; [exact Hin | apply IH, H].
Qed.

Lemma announcedFirst_snoc_update l p : forall seen,
  announcedFirst seen l ->
  In p (announced l) \/ In p seen ->
  announcedFirst seen (l ++ [UpdateParams p]).
Proof.
  induction l as [| [r' | p'] l IH]; simpl; intros seen H Hin.
  - destruct Hin as [[] | Hin]. auto.
  - apply IH; [exact H |]. destruct Hin as [[<- | Hin] | Hin].
    + right. left. reflexivity.
    + left. exact Hin.
    + right. right. exact Hin.
  - destruct H as [Hp H]. split; [exact Hp | apply IH; assumption].
Qed.

Lemma setPeriod_notifiedSoFar l r b s :
  Props.onZoom (props s) = true ->
  announcedFirst [] l ->
  exists t, log (setPeriod r b s) = log s ++ t
            /\ notifiedSoFar (l ++ t) (setPeriod r b s).
Proof.
  intros Hz Hl. exists [OnZoom (normalized r)].
  rewrite setPeriod_log, Hz. split; [reflexivity |].
  split; [now rewrite setPeriod_props |].
  split; [apply announcedFirst_snoc_onZoom, Hl |].
  intros c Hc. rewrite setPeriod_zooming in Hc. injection Hc as <-.
  rewrite announced_app. apply in_or_app. right. left. reflexivity.
Qed.

Lemma handle_notifiedSoFar e l s s' :
  keepsOnZoom e = true ->
  handle e s = Ok s' ->
  notifiedSoFar l s ->
  exists t, log s' = log s ++ t /\ notifiedSoFar (l ++ t) s'.
Proof.
  intros Hk H (Hz & Hl & Hc).
  assert (Same : exists t, log s = log s ++ t /\ notifiedSoFar (l ++ t) s).
  { exists []. rewrite !app_nil_r. repeat split; assumption. }
  destruct e as [now chart | | | p]; simpl in H.
  - destruct (handleDataZoom_cases _ _ _ _ H) as [(_ & _ & ->) | (_ & _ & a & b & ->)].
    + destruct (pop (history s)) as [[prev |] rest]; [| exact Same].
      apply (setPeriod_notifiedSoFar l prev false (setHistory rest s)); assumption.
    + apply setPeriod_notifiedSoFar; assumption.
  - injection H as <-. unfold handleZoomRestore.
    destruct (history s) as [| first rest]; [exact Same |].
    destruct (setPeriod_notifiedSoFar l first false s Hz Hl) as (t & Ht & N).
    exists t. split; [exact Ht | exact N].
  - injection H as <-. unfold handleChartFinished.
    destruct (zooming s) as [| | c] eqn:Z; try exact Same.
    exists [UpdateParams (paramsOfClosure c)]. split; [reflexivity |].
    split; [exact Hz |]. split.
    + apply announcedFirst_snoc_update; [exact Hl | left; apply Hc; reflexivity].
    + intros c' Hc'. discriminate.
  - injection H as <-. exists []. rewrite !app_nil_r. split.
    + unfold receiveProps. destruct (shouldComponentUpdate (props s) p); reflexivity.
    + simpl in Hk. unfold receiveProps.
      destruct (shouldComponentUpdate (props s) p); repeat split; assumption.
Qed.

(** X14.  With an [onZoom] prop all along and no function stored at the
    start, no range reaches the URL that the parent was not told first: in the
    calls made over any events, every [updateParams] call comes after an
    [onZoom] call with the same period, start and end. *)
Theorem notified_before_committed (es : list event) (s s' : Instance) :
  Props.onZoom (props s) = true ->
  pending s = [] ->
  forallb keepsOnZoom es = true ->
  run es s = Ok s' ->
  exists t : list call, log s' = log s ++ t /\ announcedFirst [] t.
Proof.
  intros Hz Hp Hk H.
  assert (G : forall es l s s',
             forallb keepsOnZoom es = true -> run es s = Ok s' ->
             notifiedSoFar l s ->
             exists t, log s' = log s ++ t /\ notifiedSoFar (l ++ t) s').
  { clear. intros es. induction es as [| e es IH]; simpl; intros l s s' Hk H N.
    - injection H as <-. exists []. rewrite !app_nil_r. auto.
    - apply andb_true_iff in Hk as [Hk Hks].
      destruct (handle e s) as [s1 |] eqn:E; simpl in H; [| discriminate].
      destruct (handle_notifiedSoFar e l s s1 Hk E N) as (t1 & L1 & N1).
      destruct (IH (l ++ t1) s1 s' Hks H N1) as (t2 & L2 & N2).
      exists (t1 ++ t2). rewrite L2, L1, <- app_assoc. split; [reflexivity |].
      rewrite app_assoc. exact N2. }
  destruct (G es [] s s' Hk H) as (t & L & _ & A & _).
  - split; [exact Hz |]. split; [exact I |].
    intros c Hc. unfold pending in Hp. rewrite Hc in Hp. discriminate.
  - exists t. auto.
Qed.

End FurtherProperties.

(** ** The container *)

Section ContainerProperties.
Variable V : Type.
Variable truthyValue : V -> bool.
Variable emptyArray : V.

#[local] Abbreviation lookup := (@Container.lookup V).
#[local] Abbreviation define := (@Container.define V).
#[local] Abbreviation spread := (@Container.spread V).
#[local] Abbreviation keys := (@Container.keys V).

Lemma lookup_define (o : Container.obj V) (key : string) (v : V) (k : string) :
  lookup (define o key v) k = if String.eqb key k then Some v else lookup o k.
Proof.
  induction o as [| [k0 w] o IH]; simpl.
  - reflexivity.
  - destruct (String.eqb k0 key) eqn:E; simpl.
    + apply String.eqb_eq in E. subst k0. destruct (String.eqb key k); reflexivity.
    + destruct (String.eqb k0 k) eqn:F.
      * apply String.eqb_eq in F. subst k0. now rewrite String.eqb_sym, E.
      * exact IH.
Qed.

Lemma lookup_spread (source : Container.obj V) : forall (target : Container.obj V) (k : string),
  NoDup (keys source) ->
  lookup (spread target source) k
  = match lookup source k with
    | Some v => Some v
    | None => lookup target k
    end.
Proof.
  unfold Container.spread.
  induction source as [| [k0 v0] source IH]; simpl; intros target k N.
  - reflexivity.
  - inversion N as [| ? ? Hnot N']; subst.
    rewrite IH by exact N'. rewrite lookup_define. simpl.
    destruct (String.eqb k0 k) eqn:E; [| reflexivity].
    apply String.eqb_eq in E. subst k0.
    destruct (lookup source k) eqn:L; [| reflexivity].
    exfalso. apply Hnot. clear -L.
    induction source as [| [k1 v1] source IH]; simpl in *; [discriminate |].
    destruct (String.eqb k1 k) eqn:E.
    + left. now apply String.eqb_eq.
    + right. apply IH, L.
Qed.

Lemma keys_define (o : Container.obj V) (key : string) (v : V) :
  keys (define o key v) = if existsb (String.eqb key) (keys o)
                          then keys o
                          else keys o ++ [key].
Proof.
  induction o as [| [k0 w] o IH]; simpl.
  - reflexivity.
  - rewrite (String.eqb_sym key k0).
    destruct (String.eqb k0 key) eqn:E; simpl.
    + apply String.eqb_eq in E. now subst.
    + unfold Container.keys in *. rewrite IH.
      destruct (existsb (String.eqb key) (map fst o)); reflexivity.
Qed.

Lemma define_NoDup (o : Container.obj V) (key : string) (v : V) :
  NoDup (keys o) -> NoDup (keys (define o key v)).
Proof.
  intros N. rewrite keys_define.
  destruct (existsb (String.eqb key) (keys o)) eqn:E; [exact N |].
  apply NoDup_app; [exact N | repeat constructor; intros [] |].
  intros x Hx [-> | []].
  assert (existsb (String.eqb x) (keys o) = true); [| congruence].
  apply existsb_exists. exists x. split; [exact Hx | apply String.eqb_refl].
Qed.

Lemma spread_NoDup (source : Container.obj V) : forall target : Container.obj V,
  NoDup (keys target) -> NoDup (keys (spread target source)).
Proof.
  unfold Container.spread.
  induction source as [| [k0 v0] source IH]; simpl; intros target N.
  - exact N.
  - apply IH, define_NoDup, N.
Qed.

Lemma chartProps_lookup_aux (context props : Container.obj V) (k : string) :
  NoDup (keys context) ->
  NoDup (keys props) ->
  lookup (Container.chartProps V truthyValue emptyArray context props) k
  = match lookup props k with
    | Some v => Some v
    | None =>
        if String.eqb k "project"
        then Some (Container.orEmptyArray V truthyValue emptyArray (lookup context "project"))
        else if String.eqb k "environment"
        then Some (Container.orEmptyArray V truthyValue emptyArray
                     (lookup context "environment"))
        else lookup context k
    end.
Proof.
  intros Nc Np. unfold Container.chartProps.
  rewrite lookup_spread by exact Np.
  destruct (lookup props k); [reflexivity |].
  rewrite !lookup_define, lookup_spread by exact Nc.
  rewrite (String.eqb_sym "environment"), (String.eqb_sym "project").
  destruct (String.eqb k "project") eqn:P.
  - apply String.eqb_eq in P. subst k. reflexivity.
  - destruct (String.eqb k "environment"); [reflexivity |].
    destruct (lookup context k); reflexivity.
Qed.


(** X16.  The props [EventsChart] receives are a well-formed object that
    always has a [project] and an [environment]: no key occurs twice, whatever
    the context and the container's props hold, and the two keys are there;
    unless the container's own props set them they hold a truthy value or the
    empty array, never [null] or [undefined]. *)
Theorem chartProps_defaults (context props : Container.obj V) :
  NoDup (keys context) ->
  NoDup (keys props) ->
  NoDup (keys (Container.chartProps V truthyValue emptyArray context props))
  /\ (exists v, lookup (Container.chartProps V truthyValue emptyArray context props)
                  "project" = Some v
                /\ (lookup props "project" = None ->
                    truthyValue v = true \/ v = emptyArray))
  /\ (exists v, lookup (Container.chartProps V truthyValue emptyArray context props)
                  "environment" = Some v
                /\ (lookup props "environment" = None ->
                    truthyValue v = true \/ v = emptyArray)).
Proof.
  intros Nc Np.
  assert (D : forall o, truthyValue (Container.orEmptyArray V truthyValue emptyArray o) = true
                        \/ Container.orEmptyArray V truthyValue emptyArray o = emptyArray).
  { intros [v |]; simpl; [| auto]. destruct (truthyValue v) eqn:T; auto. }
  split; [| split].
  - unfold Container.chartProps.
    apply spread_NoDup, define_NoDup, define_NoDup, spread_NoDup. constructor.
  - pose proof (chartProps_lookup_aux context props "project" Nc Np) as L.
    destruct (lookup props "project") as [v |] eqn:E; simpl in L.
    + exists v. split; [exact L | discriminate].
    + eexists. split; [exact L | intros _; apply D].
  - pose proof (chartProps_lookup_aux context props "environment" Nc Np) as L.
    destruct (lookup props "environment") as [v |] eqn:E; simpl in L.
    + exists v. split; [exact L | discriminate].
    + eexists. split; [exact L | intros _; apply D].
Qed.

End ContainerProperties.

(** ** Concrete runs *)

Section Runs.
#[local] Existing Instance Iso.moment.

Example construct_relative :
  currentPeriod (construct relativeProps)
  = {| period := Str "14d"; start := Null; end_ := Null |}.
Proof. reflexivity. Qed.

Example construct_absolute :
  currentPeriod (construct (absoluteProps msPerDay))
  = {| period := Null;
       start := Str "2019-01-01T00:00:00";
       end_ := Str "2019-01-02T00:00:00" |}.
Proof. vm_compute. reflexivity. Qed.

Example zoomedTwice_history :
  history zoomedTwice
  = [ {| period := Str "14d"; start := Null; end_ := Null |};
      {| period := Null;
         start := Str "2019-01-01T03:00:00";
         end_ := Str "2019-01-02T06:59:59" |} ].
Proof. vm_compute. reflexivity. Qed.

Example zoomedTwice_currentPeriod :
  currentPeriod zoomedTwice
  = {| period := Null;
       start := Str "2019-01-01T04:00:00";
       end_ := Str "2019-01-02T04:59:59" |}.
Proof. vm_compute. reflexivity. Qed.

(** The interval selector on the ranges of the specification. *)
Example hourly_1h :
  useHourlyInterval 0
    {| Props.period := Some (PStr "1h"); Props.start := None; Props.end_ := None;
       Props.zoom := false; Props.onZoom := true; Props.utc := true |} = true.
Proof. reflexivity. Qed.

Example daily_14d : useHourlyInterval 0 relativeProps = false.
Proof. reflexivity. Qed.

Example hourly_24h_exactly : useHourlyInterval 0 (absoluteProps (24 * msPerHour)) = true.
Proof. reflexivity. Qed.

Example daily_25h : useHourlyInterval 0 (absoluteProps (25 * msPerHour)) = false.
Proof. reflexivity. Qed.

(** C4 fails on the code: a range of 24h0m1s is longer than 24 hours and is
    answered hourly, not daily. *)
Lemma useHourlyInterval_24h_1s :
  let p := absoluteProps (24 * msPerHour + msPerSecond) in
  read (Props.period p) = Null
  /\ read (Props.start p) = DateObj (Some 1546300800000)
  /\ read (Props.end_ p) = DateObj (Some (1546300800000 + 86401000))
  /\ ~ (86401000 <= 24 * msPerHour)
  /\ useHourlyInterval 0 p = true.
Proof.
  repeat split. unfold msPerHour. lia.
Qed.



Lemma setPeriod_notifies_then_commits_run :
  let r := {| period := Null;
              start := DateObj (Some 1546300800000);
              end_ := DateObj (Some 1546387199000) |} in
  let s := construct relativeProps in
  Props.onZoom (props s) = true
  /\ log (setPeriod r true s)
     = [OnZoom {| period := Null;
                  start := Str "2019-01-01T00:00:00";
                  end_ := Str "2019-01-01T23:59:59" |}]
  /\ log (handleChartFinished (setPeriod r true s))
     = [OnZoom {| period := Null;
                  start := Str "2019-01-01T00:00:00";
                  end_ := Str "2019-01-01T23:59:59" |};
        UpdateParams {| Params.statsPeriod := Null;
                        Params.start := Str "2019-01-01T00:00:00";
                        Params.end_ := Str "2019-01-01T23:59:59";
                        Params.zoom := "1" |}].
Proof.
  intros r s.
  destruct (setPeriod_notifies_then_commits r true s eq_refl) as (L & _ & _ & F).
  split; [reflexivity |]. split.
  - rewrite L. vm_compute. reflexivity.
  - rewrite F, L. vm_compute. reflexivity.
Defined.



Lemma handleZoomRestore_first_snapshot_run :
  let es := [Finished; Datazoom 0 selection45; Finished] in
  let first := {| period := Str "14d"; start := Null; end_ := Null |} in
  history (construct relativeProps) = []
  /\ isZoomIn selection37 = true
  /\ forallb keepsHistory es = true
  /\ run (Datazoom 0 selection37 :: es) (construct relativeProps) = Ok zoomedTwice
  /\ length (history zoomedTwice) = 2%nat
  /\ hd_error (history zoomedTwice) = Some first
  /\ handleZoomRestore zoomedTwice = setHistory [] (setPeriod first false zoomedTwice)
  /\ history (handleZoomRestore zoomedTwice) = [].
Proof.
  intros es first.
  assert (Hrun : run (Datazoom 0 selection37 :: es) (construct relativeProps)
                 = Ok zoomedTwice) by (vm_compute; reflexivity).
  destruct (handleZoomRestore_first_snapshot 0 selection37 es
              (construct relativeProps) zoomedTwice eq_refl eq_refl eq_refl Hrun)
    as (_ & L & H & R & E & _).
  do 3 (split; [reflexivity |]).
  split; [exact Hrun |].
  split; [exact L |].
  split; [exact H |].
  split; [exact R | exact E].
Defined.

Lemma handleDataZoom_steps_back_run :
  isBack stepBack = true
  /\ exists s',
       run [Datazoom 0 stepBack; Finished; Datazoom 0 stepBack; Finished] zoomedTwice
       = Ok s'
       /\ history s' = []
       /\ log s'
          = log zoomedTwice
            ++ [ OnZoom {| period := Null;
                           start := Str "2019-01-01T03:00:00";
                           end_ := Str "2019-01-02T06:59:59" |};
                 UpdateParams {| Params.statsPeriod := Null;
                                 Params.start := Str "2019-01-01T03:00:00";
                                 Params.end_ := Str "2019-01-02T06:59:59";
                                 Params.zoom := "1" |};
                 OnZoom {| period := Str "14d"; start := Null; end_ := Null |};
                 UpdateParams {| Params.statsPeriod := Str "14d";
                                 Params.start := Null;
                                 Params.end_ := Null;
                                 Params.zoom := "1" |} ]
       /\ handleDataZoom 0 stepBack s' = Ok s'.
Proof.
  split; [reflexivity |].
  destruct (handleDataZoom_steps_back 0 stepBack zoomedTwice eq_refl)
    as (_ & _ & s' & Hrun & Hh & Hl & Hn).
  exists s'. split; [exact Hrun |]. split; [exact Hh |]. split; [| exact Hn].
  rewrite Hl. f_equal.
Defined.

End Runs.

(** ** Further concrete runs *)

Section FurtherRuns.
#[local] Existing Instance Iso.moment.

Lemma snapshots_only_run :
  let es := [Datazoom 0 selection37; Finished; Datazoom 0 selection45; Finished] in
  run es (construct relativeProps) = Ok (after relativeProps es)
  /\ snapshotsOnly (after relativeProps es).
Proof.
  intros es.
  assert (H : run es (construct relativeProps) = Ok (after relativeProps es))
    by (vm_compute; reflexivity).
  split; [exact H | exact (snapshots_only relativeProps es _ H)].
Defined.

Lemma history_grows_by_selections_run :
  let es := [Datazoom 0 selection37; Finished; Datazoom 0 stepBack;
             Datazoom 0 selection45; Restore] in
  run es (construct relativeProps) = Ok (after relativeProps es)
  /\ count isSelection es = 2%nat
  /\ (length (history (after relativeProps es))
      <= length (history (construct relativeProps)) + 2)%nat.
Proof.
  intros es.
  assert (H : run es (construct relativeProps) = Ok (after relativeProps es))
    by (vm_compute; reflexivity).
  split; [exact H |]. split; [reflexivity |].
  exact (history_grows_by_selections es _ _ H).
Defined.

Lemma commits_bounded_run :
  let es := [Datazoom 0 selection37; Datazoom 0 selection45; Finished; Finished;
             Finished] in
  run es (construct relativeProps) = Ok (after relativeProps es)
  /\ length (mutations (log (after relativeProps es))) = 1%nat
  /\ (length (mutations (log (after relativeProps es))) <= 0 + 3)%nat
  /\ (length (mutations (log (after relativeProps es))) <= 0 + 0 + 2)%nat.
Proof.
  intros es.
  assert (H : run es (construct relativeProps) = Ok (after relativeProps es))
    by (vm_compute; reflexivity).
  destruct (commits_bounded es _ _ H) as [A B].
  split; [exact H |]. split; [vm_compute; reflexivity |].
  split; [exact A | exact B].
Defined.

Lemma selection_then_back_run :
  let es := [Datazoom 0 selection37; Finished; Datazoom 0 stepBack; Finished] in
  stable (currentPeriod (construct relativeProps))
  /\ isZoomIn selection37 = true
  /\ isBack stepBack = true
  /\ run es (construct relativeProps) = Ok (after relativeProps es)
  /\ currentPeriod (after relativeProps es) = currentPeriod (construct relativeProps)
  /\ history (after relativeProps es) = history (construct relativeProps)
  /\ zooming (after relativeProps es) = Cleared.
Proof.
  intros es.
  assert (St : stable (currentPeriod (construct relativeProps))) by (split; reflexivity).
  assert (H : run es (construct relativeProps) = Ok (after relativeProps es))
    by (vm_compute; reflexivity).
  destruct (selection_then_back 0 0 selection37 stepBack (construct relativeProps)
              (after relativeProps es) St eq_refl eq_refl H)
    as (A & B & C & _).
  split; [exact St |]. do 2 (split; [reflexivity |]).
  split; [exact H |]. split; [exact A |]. split; [exact B | exact C].
Defined.

Lemma zoom_then_restore_run :
  let es := [Finished; Datazoom 0 selection45; Finished] in
  let all := (Datazoom 0 selection37 :: es) ++ [Restore; Finished] in
  history (construct relativeProps) = []
  /\ stable (currentPeriod (construct relativeProps))
  /\ isZoomIn selection37 = true
  /\ forallb keepsHistory es = true
  /\ run all (construct relativeProps) = Ok (after relativeProps all)
  /\ currentPeriod (after relativeProps all) = currentPeriod (construct relativeProps)
  /\ history (after relativeProps all) = []
  /\ zooming (after relativeProps all) = Cleared.
Proof.
  intros es all.
  assert (St : stable (currentPeriod (construct relativeProps))) by (split; reflexivity).
  assert (H : run all (construct relativeProps) = Ok (after relativeProps all))
    by (vm_compute; reflexivity).
  destruct (zoom_then_restore 0 selection37 es (construct relativeProps)
              (after relativeProps all) eq_refl St eq_refl eq_refl H)
    as (A & B & C & _).
  split; [reflexivity |]. split; [exact St |]. do 2 (split; [reflexivity |]).
  split; [exact H |]. split; [exact A |]. split; [exact B | exact C].
Defined.

Lemma selections_before_finished_run :
  let es := [Datazoom 0 selection37; Datazoom 0 selection45] in
  isZoomIn selection37 = true
  /\ isZoomIn selection45 = true
  /\ run es (construct relativeProps) = Ok (after relativeProps es)
  /\ history (after relativeProps es)
     = [ {| period := Str "14d"; start := Null; end_ := Null |};
         {| period := Str "14d"; start := Null; end_ := Null |} ].
Proof.
  intros es.
  assert (H : run es (construct relativeProps) = Ok (after relativeProps es))
    by (vm_compute; reflexivity).
  destruct (selections_before_finished 0 0 selection37 selection45 _ _
              eq_refl eq_refl H) as (A & _).
  do 2 (split; [reflexivity |]). split; [exact H | exact A].
Defined.

Lemma gate_on_unchanged_period_run :
  Props.period relativePropsLocal = Props.period relativeProps
  /\ Props.start relativePropsLocal = Props.start relativeProps
  /\ Props.end_ relativePropsLocal = Props.end_ relativeProps
  /\ Props.utc relativePropsLocal <> Props.utc relativeProps
  /\ shouldComponentUpdate relativeProps relativePropsLocal = false.
Proof.
  do 3 (split; [reflexivity |]). split; [discriminate |].
  exact (gate_on_unchanged_period relativeProps relativePropsLocal
           eq_refl eq_refl eq_refl).
Defined.

Lemma samePeriodKeys_equivalence_run :
  samePeriodKeys relativeProps relativePropsLocal = true
  /\ samePeriodKeys relativePropsLocal relativeProps = true
  /\ samePeriodKeys relativeProps relativeProps = true
  /\ Props.period relativeProps = Props.period relativePropsLocal.
Proof.
  destruct (samePeriodKeys_equivalence relativeProps relativePropsLocal relativeProps)
    as (S & T & E).
  split; [reflexivity |]. split; [reflexivity |].
  split; [exact (T eq_refl eq_refl) | exact (proj1 (E eq_refl))].
Defined.

Lemma receiveProps_follows_run :
  let s := construct relativeProps in
  Props.zoom hourlyProps = false
  /\ currentPeriod s = normalized (periodOfProps (props s))
  /\ currentPeriod (receiveProps hourlyProps s)
     = {| period := Str "24h"; start := Null; end_ := Null |}.
Proof.
  intros s. do 2 (split; [reflexivity |]).
  exact (proj1 (receiveProps_follows hourlyProps s eq_refl eq_refl)).
Defined.

Lemma useHourlyInterval_without_dates_run :
  periodIsString bareProps = false
  /\ readsUndefined (Props.start bareProps) = true
  /\ readsUndefined (Props.end_ bareProps) = true
  /\ useHourlyInterval 1546300800000 bareProps = true.
Proof.
  do 3 (split; [reflexivity |]).
  exact (proj1 (useHourlyInterval_without_dates 1546300800000 bareProps eq_refl)
           eq_refl eq_refl).
Defined.

Lemma useHourlyInterval_clock_run :
  readsUndefined (Props.start (absoluteProps msPerDay)) = false
  /\ readsUndefined (Props.end_ (absoluteProps msPerDay)) = false
  /\ useHourlyInterval 0 (absoluteProps msPerDay)
     = useHourlyInterval 1546300800000 (absoluteProps msPerDay).
Proof.
  do 2 (split; [reflexivity |]).
  exact (useHourlyInterval_clock 0 1546300800000 (absoluteProps msPerDay)
           (or_intror (conj eq_refl eq_refl))).
Defined.



Lemma notified_before_committed_run :
  let es := [Datazoom 0 selection37; Finished; Datazoom 0 stepBack; Finished] in
  Props.onZoom (props (construct relativeProps)) = true
  /\ pending (construct relativeProps) = []
  /\ forallb keepsOnZoom es = true
  /\ run es (construct relativeProps) = Ok (after relativeProps es)
  /\ exists t, log (after relativeProps es) = log (construct relativeProps) ++ t
               /\ announcedFirst [] t.
Proof.
  intros es.
  assert (H : run es (construct relativeProps) = Ok (after relativeProps es))
    by (vm_compute; reflexivity).
  do 3 (split; [reflexivity |]). split; [exact H |].
  exact (notified_before_committed es (construct relativeProps)
           (after relativeProps es) eq_refl eq_refl eq_refl H).
Defined.

End FurtherRuns.


Lemma chartProps_defaults_run :
  NoDup (Container.keys _ sampleContext)
  /\ NoDup (Container.keys _ sampleContainerProps)
  /\ NoDup (Container.keys _
              (Container.chartProps _
                 (fun v => match v with Some _ => true | None => false end)
                 (Some []) sampleContext sampleContainerProps)).
Proof.
  assert (Nc : NoDup (Container.keys _ sampleContext))
    by (repeat constructor; simpl; intuition discriminate).
  assert (Np : NoDup (Container.keys _ sampleContainerProps))
    by (repeat constructor; simpl; intuition discriminate).
  split; [exact Nc |]. split; [exact Np |].
  exact (proj1 (chartProps_defaults _ _ _ sampleContext sampleContainerProps Nc Np)).
Defined.
